(** * Assistente de Suporte TI: the two front-ends over the retrieval pipeline

    A shallow embedding of [main.py] (console front-end) and
    [assistente_suporte.py] (chat front-end).  Both are scripts that drive
    third-party collaborators (the directory loader, the text splitter, the
    embedding service, the vector store and the language model).  The
    collaborators are taken as a [World]: each of their calls either returns
    a value or raises, and the scripts' own control flow, messages and state
    are written out over it. *)

From Stdlib Require Import String Ascii List ZArith Bool Lia.
From stdpp Require Import base strings list gmap pretty.

Local Open Scope string_scope.
Local Open Scope list_scope.

(** ** Python strings

    A text is kept as the [string] of its bytes in UTF-8.  [lower] maps the
    letters [A] to [Z], which is all of [str.lower] that a comparison with
    an ASCII word can see; [strip] removes the white space of [str.strip],
    ASCII or not. *)

Module Py.

(** [str.lower] on one character: [A]..[Z] go to [a]..[z]. *)
Definition lower_char (c : ascii) : ascii :=
  let n := nat_of_ascii c in
  if (65 <=? n)%nat && (n <=? 90)%nat then ascii_of_nat (n + 32) else c.

Fixpoint lower (s : string) : string :=
  match s with
  | EmptyString => EmptyString
  | String c s' => String (lower_char c) (lower s')
  end.

(** A string from the values of its bytes. *)
Definition utf8 (bytes : list nat) : string :=
  fold_right (fun n s => String (ascii_of_nat n) s) EmptyString bytes.

(** The characters [str.isspace] accepts, each in UTF-8: U+0009 to U+000D,
    U+001C to U+0020, U+0085, U+00A0, U+1680, U+2000 to U+200A, U+2028,
    U+2029, U+202F, U+205F and U+3000. *)
Definition whitespace : list string :=
  map utf8
    [ [9]; [10]; [11]; [12]; [13]; [28]; [29]; [30]; [31]; [32];
      [194; 133]; [194; 160]; [225; 154; 128];
      [226; 128; 128]; [226; 128; 129]; [226; 128; 130]; [226; 128; 131];
      [226; 128; 132]; [226; 128; 133]; [226; 128; 134]; [226; 128; 135];
      [226; 128; 136]; [226; 128; 137]; [226; 128; 138];
      [226; 128; 168]; [226; 128; 169]; [226; 128; 175];
      [226; 129; 159]; [227; 128; 128] ].

(** [str.isspace] on one character, given in UTF-8. *)
Definition isspace (ch : string) : bool :=
  existsb (String.eqb ch) whitespace.

(** Reading white space byte by byte: where in a character of [whitespace]
    the reader stands, named by the bytes it holds. *)
Inductive held : Type :=
| Idle | InC2 | InE1 | InE1_9A | InE2 | InE2_80 | InE2_81 | InE3 | InE3_80.

Definition held_bytes (h : held) : string :=
  match h with
  | Idle => utf8 []
  | InC2 => utf8 [194]
  | InE1 => utf8 [225]
  | InE1_9A => utf8 [225; 154]
  | InE2 => utf8 [226]
  | InE2_80 => utf8 [226; 128]
  | InE2_81 => utf8 [226; 129]
  | InE3 => utf8 [227]
  | InE3_80 => utf8 [227; 128]
  end.

(** One more byte: the reader goes on in a white-space character, or
    completes one and holds nothing again, or ([None]) the byte does not
    go on any. *)
Definition space_step (h : held) (c : ascii) : option held :=
  let n := nat_of_ascii c in
  match h with
  | Idle =>
    if ((9 <=? n)%nat && (n <=? 13)%nat) || ((28 <=? n)%nat && (n <=? 32)%nat)
    then Some Idle
    else if (n =? 194)%nat then Some InC2
    else if (n =? 225)%nat then Some InE1
    else if (n =? 226)%nat then Some InE2
    else if (n =? 227)%nat then Some InE3
    else None
  | InC2 => if (n =? 133)%nat || (n =? 160)%nat then Some Idle else None
  | InE1 => if (n =? 154)%nat then Some InE1_9A else None
  | InE1_9A => if (n =? 128)%nat then Some Idle else None
  | InE2 =>
    if (n =? 128)%nat then Some InE2_80
    else if (n =? 129)%nat then Some InE2_81
    else None
  | InE2_80 =>
    if ((128 <=? n)%nat && (n <=? 138)%nat)
       || (n =? 168)%nat || (n =? 169)%nat || (n =? 175)%nat
    then Some Idle else None
  | InE2_81 => if (n =? 159)%nat then Some Idle else None
  | InE3 => if (n =? 128)%nat then Some InE3_80 else None
  | InE3_80 => if (n =? 128)%nat then Some Idle else None
  end.

Fixpoint space_run (h : held) (s : string) : option held :=
  match s with
  | EmptyString => Some h
  | String c s' =>
    match space_step h c with
    | Some h' => space_run h' s'
    | None => None
    end
  end.

(** From [h] on, [s] completes the character held and is white space to
    its end. *)
Definition spaces_from (h : held) (s : string) : bool :=
  match space_run h s with
  | Some Idle => true
  | _ => false
  end.

(** Every character is white space (so also: the string is empty). *)
Definition all_space (s : string) : bool := spaces_from Idle s.

(** [str.lstrip()]: the white-space characters in front are dropped; the
    bytes of a character that turns out not to be one are put back. *)
Fixpoint lstrip_from (h : held) (s : string) : string :=
  match s with
  | EmptyString => held_bytes h
  | String c s' =>
    match space_step h c with
    | Some h' => lstrip_from h' s'
    | None => held_bytes h +:+ s
    end
  end.

Definition lstrip (s : string) : string := lstrip_from Idle s.

(** [str.rstrip()]: the string is cut where what remains is white space
    to the end. *)
Fixpoint rstrip (s : string) : string :=
  match s with
  | EmptyString => EmptyString
  | String c s' =>
    if all_space (String c s') then EmptyString else String c (rstrip s')
  end.

(** [str.strip()] with no argument. *)
Definition strip (s : string) : string := rstrip (lstrip s).

(** Truth value of a [str]: the empty string is false. *)
Definition truthy (s : string) : bool :=
  match s with EmptyString => false | String _ _ => true end.

(** [os.path.basename] on POSIX paths, [p[p.rfind('/') + 1:]]: characters
    are dropped as long as a slash is still to come. *)
Fixpoint has_slash (p : string) : bool :=
  match p with
  | EmptyString => false
  | String c p' => Ascii.eqb c "/" || has_slash p'
  end.

Fixpoint basename (p : string) : string :=
  match p with
  | EmptyString => EmptyString
  | String _ p' => if has_slash p then basename p' else p
  end.

(** [needle in hay]. *)
Fixpoint contains (needle hay : string) : bool :=
  String.prefix needle hay ||
  match hay with
  | EmptyString => false
  | String _ hay' => contains needle hay'
  end.

(** [s * n]. *)
Fixpoint repeat_str (s : string) (n : nat) : string :=
  match n with
  | O => EmptyString
  | S n' => s +:+ repeat_str s n'
  end.

End Py.

(** ** The pipeline's data and its collaborators *)

(** A Python call either raises (with the text of the exception) or
    returns. *)
Inductive result (A : Type) : Type :=
| Raise (e : string)
| Return (a : A).
Arguments Raise {A} e.
Arguments Return {A} a.

Record Document := {
  page_content : string;
  metadata : gmap string string
}.

Record VectorStore := { indexed : list Document }.

(** What [RetrievalQA.from_chain_type] is given. *)
Record QAChain := {
  llm_model : string;
  temperature_tenths : nat;
  chain_type : string;
  retriever : VectorStore;
  return_source_documents : bool
}.

(** An object with a [file_path], which is what the handler of lines 60
    to 64 of the chat front-end reads from [loader]. *)
Record FileItem := {
  file_path : string
}.

(** What iterating a Document hands out: its fields, one pair of a name
    and a value each. *)
Inductive FieldValue : Type :=
| FText (text : string)
| FMeta (entries : gmap string string).

Record Field := {
  field_name : string;
  field_value : FieldValue
}.

(** The collaborators.
    - [directory_load d g] is [DirectoryLoader(d, glob=g).load()];
    - [directory_lazy_load d g] is what the generator
      [DirectoryLoader(d, glob=g).lazy_load()] yields, Document after
      Document, and the exception that ends it when a file cannot be read;
    - [document_fields] is what iterating a Document hands out;
    - [split_documents] is the splitter on Documents and [split_fields]
      the same call on the pairs the chat front-end hands it;
    - [new_embeddings], [new_llm] and [new_chain] are the constructors
      [GoogleGenerativeAIEmbeddings], [GoogleGenerativeAI] and
      [RetrievalQA.from_chain_type]: the exception they raise, if any;
    - [from_documents] is [FAISS.from_documents];
    - [invoke qa n q] is the [n]-th call (from 0) of
      [qa.invoke({"query": q})]; its dictionary is kept with its textual
      entries. *)
Record World := {
  environ : gmap string string;
  isdir : string -> bool;
  directory_load : string -> string -> result (list Document);
  directory_lazy_load : string -> string -> list Document * option string;
  document_fields : Document -> list Field;
  split_documents : nat -> nat -> list Document -> result (list Document);
  split_fields : nat -> nat -> list Field -> result (list Document);
  new_embeddings : string -> option string;
  from_documents : list Document -> string -> result VectorStore;
  new_llm : string -> nat -> option string;
  new_chain : QAChain -> option string;
  invoke : QAChain -> nat -> string -> result (gmap string string)
}.

(** [key in os.environ]. *)
Definition in_environ (key : string) (w : World) : bool :=
  match environ w !! key with
  | Some _ => true
  | None => false
  end.

Definition DIRETORIO_BASE_CONHECIMENTO : string := "./base_de_conhecimento".
Definition chunk_size : nat := 1000.
Definition chunk_overlap : nat := 200.
Definition embedding_model : string := "models/embedding-001".
Definition gemini_model : string := "gemini-1.5-flash-latest".

(** [str(KeyError(k))]. *)
Definition key_error (k : string) : string := "'" +:+ k +:+ "'".

(** The Streamlit elements the chat front-end puts on the page. *)
Inductive element : Type :=
| StTitle (text : string)
| StCaption (text : string)
| StError (text : string)
| StWarning (text : string)
| StWrite (text : string)
| StSuccess (text : string)
| StChatMessage (role content : string)
| StChatInput (placeholder : string).

(** What the outside sees of a run, in order: lines on standard output,
    prompts on standard input, elements on the page, and the calls to the
    embedding service and to the chain. *)
Inductive event : Type :=
| Printed (line : string)
| Asked (prompt : string)
| Shown (el : element)
| Embedded (chunks : nat)
| Invoked (query : string).

(** How a script ends: it runs off its last line, it calls [exit()], or an
    exception nobody catches reaches the interpreter. *)
Inductive ending : Type :=
| Finished
| SystemExit (code : option Z)
| Uncaught (e : string).

(** The status the interpreter hands to the shell. *)
Definition exit_code (e : ending) : Z :=
  match e with
  | Finished => 0
  | SystemExit None => 0
  | SystemExit (Some c) => c
  | Uncaught _ => 1
  end%Z.

Record run := {
  trace : list event;
  ended : ending;
  unread : list string
}.

Definition after (evs : list event) (r : run) : run :=
  {| trace := evs ++ trace r; ended := ended r; unread := unread r |}.

(** ** main.py *)

Module Console.

Definition prompt : string := "Sua pergunta: ".
Definition msg_no_key_1 : string :=
  "Erro: A variável de ambiente GOOGLE_API_KEY não foi encontrada.".
Definition msg_no_key_2 : string :=
  "Por favor, crie um arquivo .env e adicione a linha: GOOGLE_API_KEY='sua-chave-aqui'".
Definition msg_start : string := "Iniciando o assistente de TI com Gemini...".
Definition msg_no_dir_1 : string :=
  "Erro: O diretório '" +:+ DIRETORIO_BASE_CONHECIMENTO +:+ "' não foi encontrado.".
Definition msg_no_dir_2 : string :=
  "Por favor, crie a pasta e adicione seus arquivos de conhecimento.".
Definition msg_loading : string :=
  "Carregando documentos de '" +:+ DIRETORIO_BASE_CONHECIMENTO +:+ "'...".
Definition msg_no_docs : string :=
  "Nenhum documento encontrado na pasta. O assistente não terá conhecimento específico.".
Definition msg_loaded (n : nat) : string :=
  pretty n +:+ " documentos carregados com sucesso.".
Definition msg_splitting : string :=
  "Dividindo os documentos em trechos (chunks)...".
Definition msg_split (n : nat) : string :=
  "Documentos divididos em " +:+ pretty n +:+ " trechos.".
Definition msg_embedding : string :=
  "Criando embeddings do Google e a base de vetores (Vector Store)...".
Definition msg_indexed : string := "Base de vetores criada com sucesso.".
Definition msg_chain : string :=
  "Configurando a cadeia de Perguntas e Respostas (QA Chain) com Gemini...".
Definition nl : string := String "010" "".
Definition msg_ready : string :=
  nl +:+ "✅ Assistente de Suporte TI (Gemini) pronto! Faça sua pergunta ou digite 'sair' para encerrar.".
Definition rule : string := Py.repeat_str "-" 50.
Definition msg_bye : string := "Até logo!".
Definition msg_searching : string := nl +:+ "Buscando na base de conhecimento...".
Definition msg_answer : string := nl +:+ "Resposta do Assistente:".
Definition glob : string := "**/*.*".

Definition eof_error : string := "EOF when reading a line".

(** The [while True:] loop of step 6.  [stdin] holds the lines still to
    be read, [calls] the number of questions already sent to the chain;
    [input] on an exhausted [stdin] raises [EOFError]. *)
Fixpoint loop (w : World) (qa_chain : QAChain) (calls : nat)
    (stdin : list string) : run :=
  match stdin with
  | [] => {| trace := [Asked prompt]; ended := Uncaught eof_error; unread := [] |}
  | pergunta :: rest =>
    if String.eqb (Py.lower pergunta) "sair" then
      {| trace := [Asked prompt; Printed msg_bye];
         ended := Finished; unread := rest |}
    else if negb (Py.truthy (Py.strip pergunta)) then
      after [Asked prompt] (loop w qa_chain calls rest)
    else
      match invoke w qa_chain calls pergunta with
      | Raise e =>
        {| trace := [Asked prompt; Printed msg_searching; Invoked pergunta];
           ended := Uncaught e; unread := rest |}
      | Return resultado =>
        match resultado !! "result" with
        | None =>
          {| trace := [Asked prompt; Printed msg_searching; Invoked pergunta;
                       Printed msg_answer];
             ended := Uncaught (key_error "result"); unread := rest |}
        | Some resposta =>
          after [Asked prompt; Printed msg_searching; Invoked pergunta;
                 Printed msg_answer; Printed resposta; Printed rule]
                (loop w qa_chain (S calls) rest)
        end
      end
  end.

(** Steps 1 to 5, then the loop. *)
Definition main (w : World) (stdin : list string) : run :=
  if negb (in_environ "GOOGLE_API_KEY" w) then
    {| trace := [Printed msg_no_key_1; Printed msg_no_key_2];
       ended := SystemExit None; unread := stdin |}
  else if negb (isdir w DIRETORIO_BASE_CONHECIMENTO) then
    {| trace := [Printed msg_start; Printed msg_no_dir_1; Printed msg_no_dir_2];
       ended := SystemExit None; unread := stdin |}
  else
    match directory_load w DIRETORIO_BASE_CONHECIMENTO glob with
    | Raise e =>
      {| trace := [Printed msg_start; Printed msg_loading];
         ended := Uncaught e; unread := stdin |}
    | Return [] =>
      {| trace := [Printed msg_start; Printed msg_loading; Printed msg_no_docs];
         ended := SystemExit None; unread := stdin |}
    | Return documentos =>
      let head := [Printed msg_start; Printed msg_loading;
                   Printed (msg_loaded (length documentos));
                   Printed msg_splitting] in
      match split_documents w chunk_size chunk_overlap documentos with
      | Raise e => {| trace := head; ended := Uncaught e; unread := stdin |}
      | Return textos_divididos =>
        let head := head ++ [Printed (msg_split (length textos_divididos));
                             Printed msg_embedding] in
        match new_embeddings w embedding_model with
        | Some e => {| trace := head; ended := Uncaught e; unread := stdin |}
        | None =>
          let head := head ++ [Embedded (length textos_divididos)] in
          match from_documents w textos_divididos embedding_model with
          | Raise e => {| trace := head; ended := Uncaught e; unread := stdin |}
          | Return vector_store =>
            let head := head ++ [Printed msg_indexed; Printed msg_chain] in
            match new_llm w gemini_model 0 with
            | Some e =>
              {| trace := head; ended := Uncaught e; unread := stdin |}
            | None =>
              let qa_chain :=
                {| llm_model := gemini_model; temperature_tenths := 0;
                   chain_type := "stuff"; retriever := vector_store;
                   return_source_documents := true |} in
              match new_chain w qa_chain with
              | Some e =>
                {| trace := head; ended := Uncaught e; unread := stdin |}
              | None =>
                after (head ++ [Printed msg_ready; Printed rule])
                      (loop w qa_chain 0 stdin)
              end
            end
          end
        end
      end
    end.

End Console.

(** ** assistente_suporte.py *)

(** One entry of [st.session_state.messages]. *)
Record Turn := { role : string; content : string }.

Module Chat.

Definition page_title : string := "🤖 Assistente de Suporte de TI".
Definition page_caption : string :=
  "Eu sou um assistente baseado nos documentos da base de conhecimento.".
Definition msg_no_key : string :=
  "A variável de ambiente GOOGLE_API_KEY não foi encontrada. Configure-a no arquivo .env.".
Definition msg_no_dir : string :=
  "O diretório '" +:+ DIRETORIO_BASE_CONHECIMENTO +:+ "' não foi encontrado.".
Definition msg_some_failed : string :=
  "Alguns arquivos não puderam ser carregados:".
Definition msg_no_docs : string :=
  "Nenhum documento válido foi lido com sucesso na base de conhecimento.".
Definition msg_not_ready : string :=
  "O assistente não está pronto. Verifique as mensagens de erro ou aviso acima.".
Definition msg_apology : string :=
  "Desculpe, ocorreu um erro ao processar sua pergunta: ".
Definition placeholder : string := "Digite sua pergunta aqui...".
Definition glob : string := "**/*.{txt,pdf,docx,md,sql,csv,doc,png,pptx,xlsx}".

(** [f"{num_docs}"]. *)
Definition str_count (num_docs : option nat) : string :=
  match num_docs with
  | Some n => pretty n
  | None => "None"
  end.

Definition msg_loaded (num_docs : option nat) : string :=
  "Base de conhecimento carregada! " +:+ str_count num_docs +:+
  " documentos foram processados com sucesso.".

Definition greeting : Turn :=
  {| role := "assistant"; content := "Olá! Como posso te ajudar hoje?" |}.

(** The line the handler of lines 60 to 64 makes for [loader] and the
    exception [e]. *)
Definition erro_de (item : FileItem) (e : string) : string :=
  "Arquivo: '" +:+ Py.basename (file_path item) +:+ "' - Erro: " +:+ e.

(** The body of the [for loader in directory_loader.lazy_load():] loop,
    over the Documents the generator yields.  [documentos.extend(loader)]
    iterates a Document, which hands out its fields and does not raise: so
    the handler is never entered, [arquivos_com_erro] stays as it is, and
    what [documentos] gathers are pairs of a field name and a value. *)
Fixpoint carregar_um_por_um (w : World) (items : list Document)
    (documentos : list Field) (arquivos_com_erro : list string)
    : list Field * list string :=
  match items with
  | [] => (documentos, arquivos_com_erro)
  | loader :: rest =>
    carregar_um_por_um w rest (documentos ++ document_fields w loader)
      arquivos_com_erro
  end.

(** The warnings of lines 67 to 70. *)
Definition avisos (arquivos_com_erro : list string) : list event :=
  match arquivos_com_erro with
  | [] => []
  | _ => Shown (StWarning msg_some_failed)
         :: map (fun erro => Shown (StWrite erro)) arquivos_com_erro
  end.

(** [carregar_recursos()], without its decorator: what it shows and
    calls, and what it returns or raises.  An exception of the generator
    comes up at the [for] statement, outside the [try]. *)
Definition carregar_recursos (w : World)
    : list event * result (option QAChain * option nat) :=
  if negb (in_environ "GOOGLE_API_KEY" w) then
    ([Shown (StError msg_no_key)], Return (None, None))
  else if negb (isdir w DIRETORIO_BASE_CONHECIMENTO) then
    ([Shown (StError msg_no_dir)], Return (None, None))
  else
    match directory_lazy_load w DIRETORIO_BASE_CONHECIMENTO glob with
    | (_, Some e) => ([], Raise e)
    | (items, None) =>
      let '(documentos, arquivos_com_erro) :=
        carregar_um_por_um w items [] [] in
      let head := avisos arquivos_com_erro in
      match documentos with
      | [] => (head ++ [Shown (StError msg_no_docs)], Return (None, None))
      | _ =>
        match split_fields w chunk_size chunk_overlap documentos with
        | Raise e => (head, Raise e)
        | Return textos_divididos =>
          match new_embeddings w embedding_model with
          | Some e => (head, Raise e)
          | None =>
            let head := head ++ [Embedded (length textos_divididos)] in
            match from_documents w textos_divididos embedding_model with
            | Raise e => (head, Raise e)
            | Return vector_store =>
              match new_llm w gemini_model 3 with
              | Some e => (head, Raise e)
              | None =>
                let qa_chain :=
                  {| llm_model := gemini_model; temperature_tenths := 3;
                     chain_type := "stuff"; retriever := vector_store;
                     return_source_documents := false |} in
                match new_chain w qa_chain with
                | Some e => (head, Raise e)
                | None =>
                  (head, Return (Some qa_chain, Some (length documentos)))
                end
              end
            end
          end
        end
      end
    end.

(** What [@st.cache_resource] keeps of a call that returned: the value
    and the elements the call put on the page. *)
Record Cached (A : Type) := {
  value : A;
  replayed : list element
}.
Arguments value {A} c.
Arguments replayed {A} c.

Definition shown_in (evs : list event) : list element :=
  flat_map (fun ev => match ev with Shown el => [el] | _ => [] end) evs.

(** [@st.cache_resource] on a function without parameters: the first call
    that returns is kept for the life of the process; later calls do not
    run the function, they show its elements again and hand back the kept
    value.  A call that raises is not kept. *)
Definition cache_resource {A : Type}
    (f : World -> list event * result A)
    (cache : option (Cached A)) (w : World)
    : list event * result A * option (Cached A) :=
  match cache with
  | Some kept => (map Shown (replayed kept), Return (value kept), cache)
  | None =>
    match f w with
    | (evs, Return v) =>
      (evs, Return v, Some {| value := v; replayed := shown_in evs |})
    | (evs, Raise e) => (evs, Raise e, None)
    end
  end.

(** The state that outlives one execution of the script: the resource
    cache, [st.session_state.messages] (absent until first set), and the
    number of questions already sent to the chain. *)
Record App := {
  cache : option (Cached (option QAChain * option nat));
  messages : option (list Turn);
  calls : nat
}.

Definition fresh : App := {| cache := None; messages := None; calls := 0 |}.

Definition mostrar (m : Turn) : event :=
  Shown (StChatMessage (role m) (content m)).

(** The answer step of lines 124 to 128. *)
Definition responder (w : World) (qa_chain : QAChain) (n : nat)
    (prompt : string) : string :=
  match invoke w qa_chain n prompt with
  | Return resultado =>
    match resultado !! "result" with
    | Some resposta => resposta
    | None => msg_apology +:+ key_error "result"
    end
  | Raise e => msg_apology +:+ e
  end.

(** One execution of the script, top to bottom.  [chat_input] is what
    [st.chat_input] returns in this execution. *)
Definition script (w : World) (app : App) (chat_input : option string)
    : list event * ending * App :=
  let page := [Shown (StTitle page_title); Shown (StCaption page_caption)] in
  match cache_resource carregar_recursos (cache app) w with
  | (evs, Raise e, kept) =>
    (page ++ evs, Uncaught e,
     {| cache := kept; messages := messages app; calls := calls app |})
  | (evs, Return (None, _), kept) =>
    (page ++ evs ++ [Shown (StWarning msg_not_ready)], Finished,
     {| cache := kept; messages := messages app; calls := calls app |})
  | (evs, Return (Some qa_chain, num_docs), kept) =>
    let historico :=
      match messages app with
      | None => [greeting]
      | Some ms => ms
      end in
    let head :=
      page ++ evs ++ [Shown (StSuccess (msg_loaded num_docs))]
      ++ map mostrar historico ++ [Shown (StChatInput placeholder)] in
    match chat_input with
    | Some prompt =>
      if Py.truthy prompt then
        let user := {| role := "user"; content := prompt |} in
        let resposta := responder w qa_chain (calls app) prompt in
        let assistant := {| role := "assistant"; content := resposta |} in
        (head ++ [mostrar user; Invoked prompt; mostrar assistant], Finished,
         {| cache := kept;
            messages := Some ((historico ++ [user]) ++ [assistant]);
            calls := S (calls app) |})
      else
        (head, Finished,
         {| cache := kept; messages := Some historico; calls := calls app |})
    | None =>
      (head, Finished,
       {| cache := kept; messages := Some historico; calls := calls app |})
    end
  end.

(** A session: the script executed once per interaction. *)
Fixpoint session (w : World) (app : App) (inputs : list (option string))
    : App :=
  match inputs with
  | [] => app
  | chat_input :: rest => session w (snd (script w app chat_input)) rest
  end.

End Chat.

(** ** The glob patterns handed to the directory loader *)

Module Glob.

(** [fnmatch] on one path component: [*] stands for any run of
    characters, [?] for one character, anything else for itself (the
    patterns of the two front-ends have no character class). *)
Fixpoint fnmatch (pat name : string) : bool :=
  match pat with
  | EmptyString => negb (Py.truthy name)
  | String p pat' =>
    if Ascii.eqb p "*" then
      (fix star (name : string) : bool :=
         fnmatch pat' name ||
         match name with
         | EmptyString => false
         | String _ name' => star name'
         end) name
    else
      match name with
      | EmptyString => false
      | String c name' =>
        (Ascii.eqb p "?" || Ascii.eqb p c) && fnmatch pat' name'
      end
  end.

(** A pattern against a path, component by component: [**] stands for
    any number of directories. *)
Fixpoint glob_match (pat path : list string) : bool :=
  match pat with
  | [] => match path with [] => true | _ :: _ => false end
  | p :: pat' =>
    if String.eqb p "**" then
      (fix deep (path : list string) : bool :=
         glob_match pat' path ||
         match path with
         | [] => false
         | _ :: path' => deep path'
         end) path
    else
      match path with
      | [] => false
      | c :: path' => fnmatch p c && glob_match pat' path'
      end
  end.

(** [s.split("/")]. *)
Fixpoint components (s : string) : list string :=
  match s with
  | EmptyString => [EmptyString]
  | String c s' =>
    if Ascii.eqb c "/" then EmptyString :: components s'
    else match components s' with
         | [] => [String c EmptyString]
         | h :: t => String c h :: t
         end
  end.

(** Whether the pattern selects the file at [path], a path relative to
    the directory the loader was given. *)
Definition selects (pattern path : string) : bool :=
  glob_match (components pattern) (components path).

(** The extensions the spec lists. *)
Definition accepted : list string :=
  ["txt"; "pdf"; "docx"; "md"; "sql"; "csv"; "doc"; "png"; "pptx"; "xlsx"].

(** [s.endswith(suffix)]. *)
Fixpoint endswith (s suffix : string) : bool :=
  String.eqb s suffix ||
  match s with
  | EmptyString => false
  | String _ s' => endswith s' suffix
  end.

Definition has_accepted_extension (path : string) : bool :=
  existsb (fun ext => endswith path ("." +:+ ext)) accepted.

(** [_is_visible] of the directory loader: no component of the path, a
    path relative to the directory, starts with a dot. *)
Definition visible (path : string) : bool :=
  forallb (fun part => negb (String.prefix "." part)) (components path).

(** The files [DirectoryLoader(dir, glob=pattern)] takes, with its
    [load_hidden] left at [False]: those the pattern selects that are
    visible. *)
Definition enumerates (pattern path : string) : bool :=
  selects pattern path && visible path.

End Glob.

(** ** What the properties are stated with *)

(** The number of times the embedding service was set to work. *)
Fixpoint embeddings (evs : list event) : nat :=
  match evs with
  | [] => 0
  | Embedded _ :: evs' => S (embeddings evs')
  | _ :: evs' => embeddings evs'
  end.

(** A transcript made of question and answer pairs. *)
Definition exchanges (qas : list (string * string)) : list Turn :=
  flat_map (fun qa => [ {| role := "user"; content := fst qa |};
                        {| role := "assistant"; content := snd qa |} ]) qas.

Definition well_formed (ms : list Turn) : Prop :=
  exists qas, ms = Chat.greeting :: exchanges qas.

(** The transcript an execution of the chat script starts from. *)
Definition historico (app : Chat.App) : list Turn :=
  match Chat.messages app with
  | None => [Chat.greeting]
  | Some ms => ms
  end.

(** ** Worlds to run the scripts in *)

Module Sample.

Definition doc (text : string) : Document :=
  {| page_content := text; metadata := ∅ |}.

Definition fields (d : Document) : list Field :=
  [ {| field_name := "page_content"; field_value := FText (page_content d) |};
    {| field_name := "metadata"; field_value := FMeta (metadata d) |};
    {| field_name := "type"; field_value := FText "Document" |} ].

(** A key, a directory with one file, collaborators that do their work,
    and a chain whose second call (and only that one) fails. *)
Definition world : World :=
  {| environ := {[ "GOOGLE_API_KEY" := "chave" ]};
     isdir := fun _ => true;
     directory_load := fun _ _ => Return [doc "Para redefinir a senha..."];
     directory_lazy_load := fun _ _ =>
       ([doc "Para redefinir a senha..."], None);
     document_fields := fields;
     split_documents := fun _ _ documentos => Return documentos;
     split_fields := fun _ _ documentos =>
       Return (map (fun f => doc (field_name f)) documentos);
     new_embeddings := fun _ => None;
     from_documents := fun textos _ => Return {| indexed := textos |};
     new_llm := fun _ _ => None;
     new_chain := fun _ => None;
     invoke := fun _ n query =>
       if Nat.eqb n 1 then Raise "503 Service Unavailable"
       else Return {[ "result" := "Resposta para: " +:+ query ]} |}.

Definition with_environ (env : gmap string string) (w : World) : World :=
  {| environ := env; isdir := isdir w; directory_load := directory_load w;
     directory_lazy_load := directory_lazy_load w;
     document_fields := document_fields w;
     split_documents := split_documents w; split_fields := split_fields w;
     new_embeddings := new_embeddings w;
     from_documents := from_documents w;
     new_llm := new_llm w; new_chain := new_chain w; invoke := invoke w |}.

Definition with_isdir (b : bool) (w : World) : World :=
  {| environ := environ w; isdir := fun _ => b;
     directory_load := directory_load w;
     directory_lazy_load := directory_lazy_load w;
     document_fields := document_fields w;
     split_documents := split_documents w; split_fields := split_fields w;
     new_embeddings := new_embeddings w;
     from_documents := from_documents w;
     new_llm := new_llm w; new_chain := new_chain w; invoke := invoke w |}.

(** The directory holds the files that give [items]; when [bad] is an
    exception, a file after them cannot be read. *)
Definition with_files (items : list Document) (bad : option string)
    (w : World) : World :=
  {| environ := environ w; isdir := isdir w;
     directory_load := fun _ _ =>
       match bad with
       | None => Return items
       | Some e => Raise e
       end;
     directory_lazy_load := fun _ _ => (items, bad);
     document_fields := document_fields w;
     split_documents := split_documents w; split_fields := split_fields w;
     new_embeddings := new_embeddings w;
     from_documents := from_documents w;
     new_llm := new_llm w; new_chain := new_chain w; invoke := invoke w |}.

Definition with_invoke
    (f : QAChain -> nat -> string -> result (gmap string string))
    (w : World) : World :=
  {| environ := environ w; isdir := isdir w;
     directory_load := directory_load w;
     directory_lazy_load := directory_lazy_load w;
     document_fields := document_fields w;
     split_documents := split_documents w; split_fields := split_fields w;
     new_embeddings := new_embeddings w;
     from_documents := from_documents w;
     new_llm := new_llm w; new_chain := new_chain w; invoke := f |}.

Definition with_from_documents
    (f : list Document -> string -> result VectorStore) (w : World) : World :=
  {| environ := environ w; isdir := isdir w;
     directory_load := directory_load w;
     directory_lazy_load := directory_lazy_load w;
     document_fields := document_fields w;
     split_documents := split_documents w; split_fields := split_fields w;
     new_embeddings := new_embeddings w;
     from_documents := f;
     new_llm := new_llm w; new_chain := new_chain w; invoke := invoke w |}.

Definition no_key : World := with_environ ∅ world.
Definition no_dir : World := with_isdir false world.
Definition empty_dir : World := with_files [] None world.
Definition bad_file : World :=
  with_files [doc "Para redefinir a senha..."] (Some "arquivo corrompido")
    world.
Definition outage : World :=
  with_invoke (fun _ _ _ => Raise "503 Service Unavailable") world.

Definition qa_chain : QAChain :=
  {| llm_model := gemini_model; temperature_tenths := 0;
     chain_type := "stuff";
     retriever := {| indexed := [doc "Para redefinir a senha..."] |};
     return_source_documents := true |}.

End Sample.

(** ** Reading a trace *)

(** The questions sent to the chain, in order. *)
Fixpoint questions (evs : list event) : list string :=
  match evs with
  | [] => []
  | Invoked query :: evs' => query :: questions evs'
  | _ :: evs' => questions evs'
  end.

(** A trace without its prompts. *)
Fixpoint outputs (evs : list event) : list event :=
  match evs with
  | [] => []
  | Asked _ :: evs' => outputs evs'
  | ev :: evs' => ev :: outputs evs'
  end.

(** The lines of standard input that come before the first exit command. *)
Fixpoint before_sair (stdin : list string) : list string :=
  match stdin with
  | [] => []
  | line :: rest =>
    if String.eqb (Py.lower line) "sair" then [] else line :: before_sair rest
  end.

(** The lines that have a character other than white space. *)
Definition nonblank (lines : list string) : list string :=
  List.filter (fun line => negb (Py.all_space line)) lines.

(** What a chat session shows and calls, execution after execution. *)
Fixpoint chat_session_trace (w : World) (app : Chat.App)
    (inputs : list (option string)) : list event :=
  match inputs with
  | [] => []
  | chat_input :: rest =>
    fst (fst (Chat.script w app chat_input))
    ++ chat_session_trace w (snd (Chat.script w app chat_input)) rest
  end.

(** A pattern without [*] and [?]. *)
Fixpoint wildfree (pat : string) : bool :=
  match pat with
  | EmptyString => true
  | String c pat' =>
    negb (Ascii.eqb c "*") && negb (Ascii.eqb c "?") && wildfree pat'
  end.

(** The last character of a string. *)
Fixpoint last_char (s : string) : option ascii :=
  match s with
  | EmptyString => None
  | String c EmptyString => Some c
  | String _ s' => last_char s'
  end.

(** A world whose chain answers every question. *)
Definition answering : World :=
  Sample.with_invoke
    (fun _ _ query => Return {[ "result" := "Resposta para: " +:+ query ]})
    Sample.world.

(** * Properties *)

Example lower_SaIr : Py.lower "SaIr" = "sair".
Proof. reflexivity. Qed.

Example strip_blank : Py.strip (String "009" "  ") = "".
Proof. reflexivity. Qed.

Example strip_inner : Py.strip "  a b  " = "a b".
Proof. reflexivity. Qed.

(** U+00A0, U+0085, U+2003 and U+3000 are white space; U+200B is not. *)
Example strip_unicode :
  Py.strip (Py.utf8 [194; 160; 194; 133; 226; 128; 131; 227; 128; 128]) = "" /\
  Py.strip (Py.utf8 [194; 160] +:+ "oi" +:+ Py.utf8 [227; 128; 128]) = "oi" /\
  Py.strip (Py.utf8 [226; 128; 139]) = Py.utf8 [226; 128; 139] /\
  Py.strip ("a" +:+ Py.utf8 [195; 160] +:+ " ") = "a" +:+ Py.utf8 [195; 160].
Proof. repeat split. Qed.

Example console_skips_no_break_space :
  Console.loop Sample.world Sample.qa_chain 0 [Py.utf8 [194; 160]; "sair"] =
  {| trace := [Asked Console.prompt; Asked Console.prompt;
               Printed Console.msg_bye];
     ended := Finished; unread := [] |}.
Proof. reflexivity. Qed.

Example basename_nested : Py.basename "base/rh/manual.pdf" = "manual.pdf".
Proof. reflexivity. Qed.

Example basename_flat : Py.basename "manual.pdf" = "manual.pdf".
Proof. reflexivity. Qed.

Example basename_trailing : Py.basename "base/rh/" = "".
Proof. reflexivity. Qed.

Example components_nested : Glob.components "rh/manual.pdf" = ["rh"; "manual.pdf"].
Proof. reflexivity. Qed.

Example console_glob_txt : Glob.selects Console.glob "rh/manual.txt" = true.
Proof. reflexivity. Qed.

Example console_glob_no_dot : Glob.selects Console.glob "rh/LEIAME" = false.
Proof. reflexivity. Qed.

Example console_glob_dir_dot : Glob.selects Console.glob "v1.0/LEIAME" = false.
Proof. reflexivity. Qed.

Example sample_has_key : in_environ "GOOGLE_API_KEY" Sample.world = true.
Proof. vm_compute. reflexivity. Qed.


(** ** Strings *)

Section StringFacts.

Lemma space_run_app (h : Py.held) (s t : string) :
  Py.space_run h (s +:+ t) =
  match Py.space_run h s with
  | Some h' => Py.space_run h' t
  | None => None
  end.
Proof.
  revert h. induction s as [|c s IH]; intros h; [reflexivity|].
  change (String c s +:+ t) with (String c (s +:+ t)). simpl.
  destruct (Py.space_step h c); [apply IH | reflexivity].
Qed.

Lemma space_run_held (h : Py.held) :
  Py.space_run Py.Idle (Py.held_bytes h) = Some h.
Proof. destruct h; reflexivity. Qed.

(** What [lstrip] leaves is white space exactly when all of it was. *)
Lemma all_space_lstrip_from (s : string) :
  forall h, Py.all_space (Py.lstrip_from h s) = Py.spaces_from h s.
Proof.
  induction s as [|c s IH]; intros h.
  - destruct h; reflexivity.
  - unfold Py.spaces_from. simpl.
    destruct (Py.space_step h c) as [h'|] eqn:Hstep.
    + apply IH.
    + unfold Py.all_space, Py.spaces_from.
      rewrite space_run_app, space_run_held. simpl. now rewrite Hstep.
Qed.

Lemma all_space_lstrip (s : string) :
  Py.all_space (Py.lstrip s) = Py.all_space s.
Proof. apply all_space_lstrip_from. Qed.

Lemma rstrip_truthy (s : string) :
  Py.truthy (Py.rstrip s) = negb (Py.all_space s).
Proof.
  destruct s as [|c s]; [reflexivity|]. simpl.
  now destruct (Py.all_space (String c s)).
Qed.

(** [strip] leaves nothing exactly of the strings made of white space. *)
Lemma strip_truthy (s : string) :
  Py.truthy (Py.strip s) = negb (Py.all_space s).
Proof.
  unfold Py.strip. now rewrite rstrip_truthy, all_space_lstrip.
Qed.

(** No white-space character has the byte of an [s] or an [S] in it. *)
Lemma space_step_not_s (h : Py.held) (c : ascii) :
  Py.lower_char c = "s"%char -> Py.space_step h c = None.
Proof.
  intros Hc.
  assert (Hs : c = "s"%char \/ c = "S"%char).
  { revert Hc. destruct c as [[] [] [] [] [] [] [] []]; vm_compute; intros H;
      first [discriminate H | left; reflexivity | right; reflexivity]. }
  destruct Hs as [-> | ->]; destruct h; reflexivity.
Qed.

Lemma space_run_letter (pre : string) (c : ascii) (rest : string) :
  Py.lower_char c = "s"%char ->
  forall h, Py.space_run h (pre +:+ String c rest) = None.
Proof.
  intros Hc. induction pre as [|b pre IH]; intros h.
  - change ("" +:+ String c rest) with (String c rest). simpl.
    now rewrite space_step_not_s.
  - change (String b pre +:+ String c rest)
      with (String b (pre +:+ String c rest)). simpl.
    destruct (Py.space_step h b); [apply IH | reflexivity].
Qed.

Lemma all_space_not_sair (s : string) :
  Py.all_space s = true -> Py.lower s <> "sair".
Proof.
  intros Hs Heq. destruct s as [|c s]; [discriminate Heq|].
  simpl in Heq. injection Heq as Hc _.
  unfold Py.all_space, Py.spaces_from in Hs.
  pose proof (space_run_letter "" c s Hc Py.Idle) as Hn.
  change ("" +:+ String c s) with (String c s) in Hn.
  rewrite Hn in Hs. discriminate Hs.
Qed.

Lemma length_lower (s : string) :
  String.length (Py.lower s) = String.length s.
Proof. induction s as [|c s IH]; simpl; [reflexivity | now rewrite IH]. Qed.

Lemma length_app (s t : string) :
  String.length (s +:+ t) = String.length s + String.length t.
Proof.
  induction s as [|c s IH]; [reflexivity|].
  change (String c s +:+ t) with (String c (s +:+ t)).
  simpl. now rewrite IH.
Qed.

(** The exit word with something around it is neither the exit command
    nor a blank line. *)
Lemma padded_sair (pre word post : string) :
  Py.lower word = "sair" ->
  pre <> "" \/ post <> "" ->
  Py.lower (pre +:+ word +:+ post) <> "sair" /\
  Py.all_space (pre +:+ word +:+ post) = false.
Proof.
  intros Hw Hpad. split.
  - intros Heq. apply (f_equal String.length) in Heq.
    rewrite length_lower, !length_app, <- (length_lower word), Hw in Heq.
    simpl in Heq.
    destruct pre, post; simpl in Heq; try lia. destruct Hpad; congruence.
  - destruct word as [|c word]; [discriminate Hw|].
    simpl in Hw. injection Hw as Hc _.
    unfold Py.all_space, Py.spaces_from.
    change (String c word +:+ post) with (String c (word +:+ post)).
    now rewrite (space_run_letter pre c (word +:+ post) Hc Py.Idle).
Qed.

(** Each character of the table is white space to the reader, and every
    string the reader takes for white space is made of characters of the
    table. *)
Lemma whitespace_all_space :
  Forall (fun ch => Py.all_space ch = true) Py.whitespace.
Proof. repeat constructor. Qed.

Lemma space_step_cases (h h' : Py.held) (c : ascii) :
  Py.space_step h c = Some h' ->
  (h' = Py.Idle /\ Py.isspace (Py.held_bytes h +:+ String c "") = true) \/
  (h' <> Py.Idle /\ Py.held_bytes h' = Py.held_bytes h +:+ String c "").
Proof.
  destruct h; destruct c as [[] [] [] [] [] [] [] []]; vm_compute; intros H;
    first [ discriminate H
          | injection H as <-; left; split; reflexivity
          | injection H as <-; right; split; [discriminate | reflexivity] ].
Qed.

Lemma app_assoc_string (a b c : string) :
  (a +:+ b) +:+ c = a +:+ (b +:+ c).
Proof.
  induction a as [|x a IH]; [reflexivity|].
  change (String x a +:+ b) with (String x (a +:+ b)).
  change (String x (a +:+ b) +:+ c) with (String x ((a +:+ b) +:+ c)).
  now rewrite IH.
Qed.

Lemma spaces_from_chars (s : string) :
  forall h, Py.spaces_from h s = true ->
  exists chars,
    List.forallb Py.isspace chars = true /\
    Py.held_bytes h +:+ s = String.concat "" chars.
Proof.
  induction s as [|c s IH]; intros h Hs.
  - destruct h; try discriminate Hs. now exists [].
  - unfold Py.spaces_from in Hs. simpl in Hs.
    destruct (Py.space_step h c) as [h'|] eqn:Hstep; [|discriminate Hs].
    destruct (IH h' Hs) as (chars & Hall & Heq).
    destruct (space_step_cases h h' c Hstep) as [[-> Hch] | [_ Hheld]].
    + exists ((Py.held_bytes h +:+ String c "") :: chars). split.
      * simpl. now rewrite Hch, Hall.
      * change (Py.held_bytes Py.Idle +:+ s) with s in Heq.
        destruct chars as [|ch chars].
        { simpl in Heq. subst s. reflexivity. }
        change (String.concat "" (?x :: ch :: chars))
          with (x +:+ "" +:+ String.concat "" (ch :: chars)).
        rewrite <- Heq, app_assoc_string. reflexivity.
    + exists chars. split; [exact Hall|].
      rewrite <- Heq, Hheld, app_assoc_string. reflexivity.
Qed.

Lemma all_space_chars (s : string) :
  Py.all_space s = true <->
  exists chars,
    List.forallb Py.isspace chars = true /\ s = String.concat "" chars.
Proof.
  split.
  - intros H. now apply (spaces_from_chars s Py.Idle).
  - intros (chars & Hall & ->). induction chars as [|ch chars IH].
    + reflexivity.
    + simpl in Hall. apply andb_true_iff in Hall as [Hch Hall].
      specialize (IH Hall).
      assert (Hrun : Py.space_run Py.Idle ch = Some Py.Idle).
      { unfold Py.isspace in Hch. apply existsb_exists in Hch as (e & Hin & He).
        apply String.eqb_eq in He. subst e.
        pose proof whitespace_all_space as Hw.
        rewrite List.Forall_forall in Hw. specialize (Hw ch Hin).
        unfold Py.all_space, Py.spaces_from in Hw.
        destruct (Py.space_run Py.Idle ch) as [[]|]; congruence. }
      unfold Py.all_space, Py.spaces_from in *.
      destruct chars as [|ch' chars].
      * simpl. now rewrite Hrun.
      * change (String.concat "" (ch :: ch' :: chars))
          with (ch +:+ "" +:+ String.concat "" (ch' :: chars)).
        rewrite space_run_app, Hrun. exact IH.
Qed.

End StringFacts.

(** ** The console loop *)

Section ConsoleLoop.

Variable w : World.
Variable qa_chain : QAChain.

Lemma loop_sair (n : nat) (line : string) (rest : list string) :
  Py.lower line = "sair" ->
  Console.loop w qa_chain n (line :: rest) =
  {| trace := [Asked Console.prompt; Printed Console.msg_bye];
     ended := Finished; unread := rest |}.
Proof. intros H; simpl. now rewrite H. Qed.

Lemma loop_blank (n : nat) (line : string) (rest : list string) :
  Py.all_space line = true ->
  Console.loop w qa_chain n (line :: rest) =
  after [Asked Console.prompt] (Console.loop w qa_chain n rest).
Proof.
  intros H; simpl.
  destruct (String.eqb_spec (Py.lower line) "sair") as [Hs|_].
  - now apply all_space_not_sair in H.
  - now rewrite strip_truthy, H.
Qed.

Lemma loop_question (n : nat) (line : string) (rest : list string) :
  Py.lower line <> "sair" -> Py.all_space line = false ->
  Console.loop w qa_chain n (line :: rest) =
  match invoke w qa_chain n line with
  | Raise e =>
    {| trace := [Asked Console.prompt; Printed Console.msg_searching;
                 Invoked line];
       ended := Uncaught e; unread := rest |}
  | Return resultado =>
    match resultado !! "result" with
    | None =>
      {| trace := [Asked Console.prompt; Printed Console.msg_searching;
                   Invoked line; Printed Console.msg_answer];
         ended := Uncaught (key_error "result"); unread := rest |}
    | Some resposta =>
      after [Asked Console.prompt; Printed Console.msg_searching;
             Invoked line; Printed Console.msg_answer; Printed resposta;
             Printed Console.rule]
            (Console.loop w qa_chain (S n) rest)
    end
  end.
Proof.
  intros Hs Hb; simpl.
  destruct (String.eqb_spec (Py.lower line) "sair") as [|_]; [contradiction|].
  now rewrite strip_truthy, Hb.
Qed.

End ConsoleLoop.

Section ConsoleRuns.

Variable w : World.

(** The loop ends by itself only at a line that reads [sair]. *)
Lemma loop_finished_inv (qa_chain : QAChain) (stdin : list string) :
  forall n : nat,
  ended (Console.loop w qa_chain n stdin) = Finished ->
  exists before line,
    stdin = before ++ line :: unread (Console.loop w qa_chain n stdin) /\
    Py.lower line = "sair" /\
    Forall (fun l => Py.lower l <> "sair") before.
Proof.
  induction stdin as [|line rest IH]; intros n Hend; [discriminate|].
  destruct (String.eqb_spec (Py.lower line) "sair") as [Hs|Hs].
  { rewrite loop_sair by exact Hs. exists [], line. now repeat split. }
  assert (Hgo : forall m,
    ended (Console.loop w qa_chain m rest) = Finished ->
    exists before l,
      line :: rest = before ++ l :: unread (Console.loop w qa_chain m rest) /\
      Py.lower l = "sair" /\ Forall (fun l => Py.lower l <> "sair") before).
  { intros m Hm. destruct (IH m Hm) as (before & l & Heq & Hl & Hall).
    exists (line :: before), l. split; [|split]; trivial.
    - simpl. now f_equal.
    - now constructor. }
  destruct (Py.all_space line) eqn:Hb.
  { rewrite loop_blank in * by exact Hb. now apply Hgo. }
  rewrite loop_question in * by assumption.
  destruct (invoke w qa_chain n line) as [e|resultado]; [discriminate|].
  destruct (resultado !! "result") as [resposta|]; [|discriminate].
  now apply Hgo.
Qed.

Lemma main_no_key (stdin : list string) :
  in_environ "GOOGLE_API_KEY" w = false ->
  Console.main w stdin =
  {| trace := [Printed Console.msg_no_key_1; Printed Console.msg_no_key_2];
     ended := SystemExit None; unread := stdin |}.
Proof. intros H. unfold Console.main. now rewrite H. Qed.

Lemma main_no_dir (stdin : list string) :
  in_environ "GOOGLE_API_KEY" w = true ->
  isdir w DIRETORIO_BASE_CONHECIMENTO = false ->
  Console.main w stdin =
  {| trace := [Printed Console.msg_start; Printed Console.msg_no_dir_1;
               Printed Console.msg_no_dir_2];
     ended := SystemExit None; unread := stdin |}.
Proof. intros Hk Hd. unfold Console.main. now rewrite Hk, Hd. Qed.

Lemma main_no_docs (stdin : list string) :
  in_environ "GOOGLE_API_KEY" w = true ->
  isdir w DIRETORIO_BASE_CONHECIMENTO = true ->
  directory_load w DIRETORIO_BASE_CONHECIMENTO Console.glob = Return [] ->
  Console.main w stdin =
  {| trace := [Printed Console.msg_start; Printed Console.msg_loading;
               Printed Console.msg_no_docs];
     ended := SystemExit None; unread := stdin |}.
Proof. intros Hk Hd Hl. unfold Console.main. now rewrite Hk, Hd, Hl. Qed.

(** When the script runs off its end, the loop was reached and left. *)
Lemma main_finished_inv (stdin : list string) :
  ended (Console.main w stdin) = Finished ->
  exists qa_chain,
    ended (Console.loop w qa_chain 0 stdin) = Finished /\
    unread (Console.main w stdin) = unread (Console.loop w qa_chain 0 stdin).
Proof.
  unfold Console.main.
  destruct (in_environ _ w); simpl; [|discriminate].
  destruct (isdir w _); simpl; [|discriminate].
  destruct (directory_load w _ _) as [e|[|d ds]]; try discriminate.
  destruct (split_documents w _ _ _) as [e|textos]; [discriminate|].
  destruct (new_embeddings w _) as [e|]; [discriminate|].
  destruct (from_documents w _ _) as [e|vs]; [discriminate|].
  destruct (new_llm w _ _) as [e|]; [discriminate|].
  destruct (new_chain w _) as [e|]; [discriminate|].
  simpl. intros H. eexists. split; [exact H | reflexivity].
Qed.

End ConsoleRuns.

(** C2, as the code has it: every input whose lower-case form is [sair]
    ends the console loop at once, with the farewell and no further prompt
    (the lines after it stay unread); and the loop never ends by itself at
    any other input: whenever it has ended normally, the last line read is
    one that reads [sair] and no line before it does.  The word [exit] is
    not an exit command. *)
Theorem console_sair_ends_loop (w : World) (qa_chain : QAChain)
    (n : nat) (stdin : list string) :
  (forall line rest, stdin = line :: rest -> Py.lower line = "sair" ->
     Console.loop w qa_chain n stdin =
     {| trace := [Asked Console.prompt; Printed Console.msg_bye];
        ended := Finished; unread := rest |}) /\
  (ended (Console.loop w qa_chain n stdin) = Finished ->
     exists before line,
       stdin = before ++ line :: unread (Console.loop w qa_chain n stdin) /\
       Py.lower line = "sair" /\
       Forall (fun l => Py.lower l <> "sair") before).
Proof.
  split.
  - intros line rest -> Hs. now apply loop_sair.
  - apply loop_finished_inv.
Qed.

Lemma console_sair_ends_loop_witness :
  Console.loop Sample.world Sample.qa_chain 0 ["SAIR"; "oi"] =
  {| trace := [Asked Console.prompt; Printed Console.msg_bye];
     ended := Finished; unread := ["oi"] |} /\
  exists before line,
    ["oi"; "Sair"; "x"] =
    before ++ line ::
      unread (Console.loop Sample.world Sample.qa_chain 0 ["oi"; "Sair"; "x"]) /\
    Py.lower line = "sair" /\
    Forall (fun l => Py.lower l <> "sair") before.
Proof.
  split.
  - apply (proj1 (console_sair_ends_loop Sample.world Sample.qa_chain 0
                    ["SAIR"; "oi"]) "SAIR" ["oi"]); reflexivity.
  - apply (proj2 (console_sair_ends_loop Sample.world Sample.qa_chain 0
                    ["oi"; "Sair"; "x"])).
    vm_compute. reflexivity.
Defined.

(** C2, counterexample: the input [exit] is sent to the chain as a question
    and the console asks again; only the [sair] that follows ends the
    loop. *)
Lemma console_exit_is_a_question :
  Py.lower "exit" = "exit" /\
  Console.loop Sample.world Sample.qa_chain 0 ["exit"; "sair"] =
  {| trace := [Asked Console.prompt; Printed Console.msg_searching;
               Invoked "exit"; Printed Console.msg_answer;
               Printed "Resposta para: exit"; Printed Console.rule;
               Asked Console.prompt; Printed Console.msg_bye];
     ended := Finished; unread := [] |}.
Proof. split; vm_compute; reflexivity. Qed.

(** C10: the console compares the lower-cased raw line with [sair] first and
    strips nothing for it.  So the exit word with white space before or
    after it is not the exit command: the line goes to the chain as it was
    typed, and when the chain answers the loop goes on.  Any line that is
    not the exit command and has a character that is not white space is
    sent as it was typed; an empty line or one of white space only is
    skipped without a word and without a call to the chain. *)
Theorem console_exit_check_before_strip (w : World) (qa_chain : QAChain)
    (n : nat) (pre word post line : string) (rest : list string) :
  (Py.lower word = "sair" -> pre <> "" \/ post <> "" ->
     Console.loop w qa_chain n ((pre +:+ word +:+ post) :: rest) =
     match invoke w qa_chain n (pre +:+ word +:+ post) with
     | Raise e =>
       {| trace := [Asked Console.prompt; Printed Console.msg_searching;
                    Invoked (pre +:+ word +:+ post)];
          ended := Uncaught e; unread := rest |}
     | Return resultado =>
       match resultado !! "result" with
       | None =>
         {| trace := [Asked Console.prompt; Printed Console.msg_searching;
                      Invoked (pre +:+ word +:+ post);
                      Printed Console.msg_answer];
            ended := Uncaught (key_error "result"); unread := rest |}
       | Some resposta =>
         after [Asked Console.prompt; Printed Console.msg_searching;
                Invoked (pre +:+ word +:+ post); Printed Console.msg_answer;
                Printed resposta; Printed Console.rule]
               (Console.loop w qa_chain (S n) rest)
       end
     end) /\
  (Py.lower line <> "sair" -> Py.all_space line = false ->
     exists tail,
       trace (Console.loop w qa_chain n (line :: rest)) =
       [Asked Console.prompt; Printed Console.msg_searching; Invoked line]
       ++ tail) /\
  (Py.all_space line = true ->
     Console.loop w qa_chain n (line :: rest) =
     after [Asked Console.prompt] (Console.loop w qa_chain n rest)).
Proof.
  split; [|split].
  - intros Hw Hpad. destruct (padded_sair pre word post Hw Hpad).
    now apply loop_question.
  - intros Hs Hb. rewrite loop_question by assumption.
    destruct (invoke w qa_chain n line) as [e|resultado]; [now eexists|].
    destruct (resultado !! "result"); now eexists.
  - apply loop_blank.
Qed.

Lemma console_exit_check_before_strip_witness :
  Console.loop Sample.world Sample.qa_chain 0 [" sair "; "sair"; "oi"] =
  {| trace := [Asked Console.prompt; Printed Console.msg_searching;
               Invoked " sair "; Printed Console.msg_answer;
               Printed "Resposta para:  sair "; Printed Console.rule;
               Asked Console.prompt; Printed Console.msg_bye];
     ended := Finished; unread := ["oi"] |} /\
  (exists tail,
     trace (Console.loop Sample.world Sample.qa_chain 0 ["Sair agora"; "sair"]) =
     [Asked Console.prompt; Printed Console.msg_searching;
      Invoked "Sair agora"] ++ tail) /\
  Console.loop Sample.world Sample.qa_chain 0 [String "009" "  "; "sair"] =
  after [Asked Console.prompt]
    (Console.loop Sample.world Sample.qa_chain 0 ["sair"]) /\
  Console.loop Sample.world Sample.qa_chain 0
    [Py.utf8 [194; 160; 32; 227; 128; 128]; "sair"] =
  after [Asked Console.prompt]
    (Console.loop Sample.world Sample.qa_chain 0 ["sair"]).
Proof.
  split; [|split; [|split]].
  - apply (proj1 (console_exit_check_before_strip
             Sample.world Sample.qa_chain 0 " " "sair" " " "" ["sair"; "oi"])).
    + reflexivity.
    + left. discriminate.
  - apply (proj1 (proj2 (console_exit_check_before_strip
             Sample.world Sample.qa_chain 0 "" "" "" "Sair agora" ["sair"]))).
    + vm_compute. discriminate.
    + reflexivity.
  - apply (proj2 (proj2 (console_exit_check_before_strip
             Sample.world Sample.qa_chain 0 "" "" ""
             (String "009" "  ") ["sair"]))).
    reflexivity.
  - apply (proj2 (proj2 (console_exit_check_before_strip
             Sample.world Sample.qa_chain 0 "" "" ""
             (Py.utf8 [194; 160; 32; 227; 128; 128]) ["sair"]))).
    reflexivity.
Defined.

(** C1, the console front-end: a failure raised by the chain while it
    answers a question is not caught.  The run stops there with the
    exception: nothing is printed for it and the lines that follow are
    never read. *)
Theorem console_answer_failure_uncaught (w : World) (qa_chain : QAChain)
    (n : nat) (line : string) (rest : list string) (e : string) :
  Py.lower line <> "sair" -> Py.all_space line = false ->
  invoke w qa_chain n line = Raise e ->
  Console.loop w qa_chain n (line :: rest) =
  {| trace := [Asked Console.prompt; Printed Console.msg_searching;
               Invoked line];
     ended := Uncaught e; unread := rest |}.
Proof.
  intros Hs Hb He. rewrite loop_question by assumption. now rewrite He.
Qed.

Lemma console_answer_failure_uncaught_witness :
  Console.loop Sample.outage Sample.qa_chain 0
    ["Como redefinir a senha?"; "sair"] =
  {| trace := [Asked Console.prompt; Printed Console.msg_searching;
               Invoked "Como redefinir a senha?"];
     ended := Uncaught "503 Service Unavailable"; unread := ["sair"] |}.
Proof.
  apply (console_answer_failure_uncaught Sample.outage Sample.qa_chain 0
           "Como redefinir a senha?" ["sair"] "503 Service Unavailable").
  - vm_compute. discriminate.
  - reflexivity.
  - reflexivity.
Defined.

(** The whole console script under an outage of the provider: the first
    question ends the process with status 1. *)
Example console_outage_run :
  let r := Console.main Sample.outage ["Como redefinir a senha?"; "sair"] in
  ended r = Uncaught "503 Service Unavailable" /\
  exit_code (ended r) = 1%Z /\
  unread r = ["sair"].
Proof. vm_compute. repeat split. Qed.

(** C5, as the code has it: the console script's status is 0 when it ends
    normally, which it does only after a line that reads [sair], and it is
    0 as well on the setup failures it detects, a missing credential and a
    missing directory: each of them ends in [exit()] without a status. *)
Theorem console_exit_status (w : World) (stdin : list string) :
  (ended (Console.main w stdin) = Finished ->
     exit_code (ended (Console.main w stdin)) = 0%Z /\
     exists before line,
       stdin = before ++ line :: unread (Console.main w stdin) /\
       Py.lower line = "sair") /\
  (in_environ "GOOGLE_API_KEY" w = false ->
     ended (Console.main w stdin) = SystemExit None /\
     exit_code (ended (Console.main w stdin)) = 0%Z) /\
  (in_environ "GOOGLE_API_KEY" w = true ->
   isdir w DIRETORIO_BASE_CONHECIMENTO = false ->
     ended (Console.main w stdin) = SystemExit None /\
     exit_code (ended (Console.main w stdin)) = 0%Z).
Proof.
  split; [|split].
  - intros H. split; [now rewrite H|].
    destruct (main_finished_inv w stdin H) as (qa & Hq & ->).
    destruct (loop_finished_inv w qa stdin 0 Hq) as (before & line & ? & ? & _).
    now exists before, line.
  - intros Hk. now rewrite main_no_key.
  - intros Hk Hd. now rewrite main_no_dir.
Qed.

Lemma console_exit_status_witness :
  (exit_code (ended (Console.main Sample.world ["oi"; "sair"])) = 0%Z /\
   exists before line,
     ["oi"; "sair"] =
     before ++ line :: unread (Console.main Sample.world ["oi"; "sair"]) /\
     Py.lower line = "sair") /\
  (ended (Console.main Sample.no_key ["oi"]) = SystemExit None /\
   exit_code (ended (Console.main Sample.no_key ["oi"])) = 0%Z) /\
  (ended (Console.main Sample.no_dir ["oi"]) = SystemExit None /\
   exit_code (ended (Console.main Sample.no_dir ["oi"])) = 0%Z).
Proof.
  split; [|split].
  - apply (proj1 (console_exit_status Sample.world ["oi"; "sair"])).
    vm_compute. reflexivity.
  - apply (proj1 (proj2 (console_exit_status Sample.no_key ["oi"]))).
    vm_compute. reflexivity.
  - apply (proj2 (proj2 (console_exit_status Sample.no_dir ["oi"]))).
    + vm_compute. reflexivity.
    + reflexivity.
Defined.

(** C5, counterexample: without the credential, and without the directory,
    the console script stops with status 0. *)
Lemma console_fatal_setup_status_zero :
  in_environ "GOOGLE_API_KEY" Sample.no_key = false /\
  exit_code (ended (Console.main Sample.no_key [])) = 0%Z /\
  isdir Sample.no_dir DIRETORIO_BASE_CONHECIMENTO = false /\
  exit_code (ended (Console.main Sample.no_dir [])) = 0%Z.
Proof. vm_compute. repeat split. Qed.

(** ** The chat loader *)

Section ChatLoader.

Lemma app_String (c : ascii) (s t : string) :
  String c s +:+ t = String c (s +:+ t).
Proof. reflexivity. Qed.

Lemma prefix_app (x b : string) : String.prefix x (x +:+ b) = true.
Proof.
  induction x as [|c x IH]; [now destruct b|].
  rewrite app_String; simpl.
  destruct (ascii_dec c c); [exact IH | congruence].
Qed.

Lemma contains_here (x b : string) : Py.contains x (x +:+ b) = true.
Proof.
  pose proof (prefix_app x b) as H.
  destruct (x +:+ b); simpl in *; now rewrite H.
Qed.

Lemma contains_later (x a t : string) :
  Py.contains x t = true -> Py.contains x (a +:+ t) = true.
Proof.
  intros H. induction a as [|c a IH]; [exact H|].
  rewrite app_String; simpl. rewrite IH. apply orb_true_r.
Qed.

Lemma app_empty_r (s : string) : s +:+ "" = s.
Proof.
  induction s as [|c s IH]; [reflexivity|]. now rewrite app_String, IH.
Qed.

(** The line kept for a failing file shows its base name and the text of
    the exception. *)
Lemma erro_de_contains (item : FileItem) (e : string) :
  Py.contains (Py.basename (file_path item)) (Chat.erro_de item e) = true /\
  Py.contains e (Chat.erro_de item e) = true.
Proof.
  unfold Chat.erro_de. split.
  - apply contains_later, contains_here.
  - do 3 apply contains_later.
    rewrite <- (app_empty_r e) at 2. apply contains_here.
Qed.

(** The loop in closed form: the fields of every Document that was
    yielded, in order; no line is added for a failing file. *)
Lemma carregar_um_por_um_spec (w : World) (items : list Document) :
  forall (documentos : list Field) (arquivos_com_erro : list string),
  Chat.carregar_um_por_um w items documentos arquivos_com_erro =
  (documentos ++ flat_map (document_fields w) items, arquivos_com_erro).
Proof.
  induction items as [|item rest IH]; intros documentos erros; simpl.
  - now rewrite app_nil_r.
  - rewrite IH. now rewrite <- app_assoc.
Qed.

End ChatLoader.

(** ** Setup in the chat front-end *)

Section ChatSetup.

Variable w : World.

Local Ltac ok := first [assumption | reflexivity].

Lemma embeddings_app (evs1 evs2 : list event) :
  embeddings (evs1 ++ evs2) = embeddings evs1 + embeddings evs2.
Proof.
  induction evs1 as [|[] evs1 IH]; simpl; auto.
Qed.

Lemma embeddings_shown (els : list element) :
  embeddings (map Shown els) = 0.
Proof. induction els; simpl; auto. Qed.

Lemma embeddings_avisos (erros : list string) :
  embeddings (Chat.avisos erros) = 0.
Proof.
  destruct erros as [|e erros]; [reflexivity|].
  unfold Chat.avisos. generalize (e :: erros) as l. intros l.
  simpl. induction l; simpl; auto.
Qed.

Lemma carregar_no_key :
  in_environ "GOOGLE_API_KEY" w = false ->
  Chat.carregar_recursos w =
  ([Shown (StError Chat.msg_no_key)], Return (None, None)).
Proof. intros H. unfold Chat.carregar_recursos. now rewrite H. Qed.

Lemma carregar_no_dir :
  in_environ "GOOGLE_API_KEY" w = true ->
  isdir w DIRETORIO_BASE_CONHECIMENTO = false ->
  Chat.carregar_recursos w =
  ([Shown (StError Chat.msg_no_dir)], Return (None, None)).
Proof. intros Hk Hd. unfold Chat.carregar_recursos. now rewrite Hk, Hd. Qed.

(** A file that cannot be read ends the setup where the loop stands. *)
Lemma carregar_bad_file (items : list Document) (e : string) :
  in_environ "GOOGLE_API_KEY" w = true ->
  isdir w DIRETORIO_BASE_CONHECIMENTO = true ->
  directory_lazy_load w DIRETORIO_BASE_CONHECIMENTO Chat.glob
  = (items, Some e) ->
  Chat.carregar_recursos w = ([], Raise e).
Proof.
  intros Hk Hd Hl. unfold Chat.carregar_recursos. now rewrite Hk, Hd, Hl.
Qed.

Lemma carregar_no_docs (items : list Document) :
  in_environ "GOOGLE_API_KEY" w = true ->
  isdir w DIRETORIO_BASE_CONHECIMENTO = true ->
  directory_lazy_load w DIRETORIO_BASE_CONHECIMENTO Chat.glob
  = (items, None) ->
  flat_map (document_fields w) items = [] ->
  Chat.carregar_recursos w =
  ([Shown (StError Chat.msg_no_docs)], Return (None, None)).
Proof.
  intros Hk Hd Hl Hn. unfold Chat.carregar_recursos.
  rewrite Hk, Hd, Hl; simpl.
  rewrite carregar_um_por_um_spec; simpl. now rewrite Hn.
Qed.

(** What the setup does once the credential and the directory are there
    and the generator has come to its end. *)
Lemma carregar_cases (items : list Document) :
  in_environ "GOOGLE_API_KEY" w = true ->
  isdir w DIRETORIO_BASE_CONHECIMENTO = true ->
  directory_lazy_load w DIRETORIO_BASE_CONHECIMENTO Chat.glob
  = (items, None) ->
  let documentos := flat_map (document_fields w) items in
  (documentos = [] /\
   Chat.carregar_recursos w =
   ([Shown (StError Chat.msg_no_docs)], Return (None, None))) \/
  (documentos <> [] /\
   exists e,
     split_fields w chunk_size chunk_overlap documentos = Raise e /\
     Chat.carregar_recursos w = ([], Raise e)) \/
  (documentos <> [] /\
   exists textos e,
     split_fields w chunk_size chunk_overlap documentos = Return textos /\
     new_embeddings w embedding_model = Some e /\
     Chat.carregar_recursos w = ([], Raise e)) \/
  (documentos <> [] /\
   exists textos e,
     split_fields w chunk_size chunk_overlap documentos = Return textos /\
     new_embeddings w embedding_model = None /\
     (from_documents w textos embedding_model = Raise e \/
      (exists vector_store,
         from_documents w textos embedding_model = Return vector_store /\
         (new_llm w gemini_model 3 = Some e \/
          new_llm w gemini_model 3 = None /\
          new_chain w
            {| llm_model := gemini_model; temperature_tenths := 3;
               chain_type := "stuff"; retriever := vector_store;
               return_source_documents := false |} = Some e))) /\
     Chat.carregar_recursos w = ([Embedded (length textos)], Raise e)) \/
  (documentos <> [] /\
   exists textos vector_store,
     split_fields w chunk_size chunk_overlap documentos = Return textos /\
     new_embeddings w embedding_model = None /\
     from_documents w textos embedding_model = Return vector_store /\
     new_llm w gemini_model 3 = None /\
     new_chain w
       {| llm_model := gemini_model; temperature_tenths := 3;
          chain_type := "stuff"; retriever := vector_store;
          return_source_documents := false |} = None /\
     Chat.carregar_recursos w =
     ([Embedded (length textos)],
      Return (Some {| llm_model := gemini_model; temperature_tenths := 3;
                      chain_type := "stuff"; retriever := vector_store;
                      return_source_documents := false |},
              Some (length documentos)))).
Proof.
  intros Hk Hd Hl documentos. unfold Chat.carregar_recursos.
  rewrite Hk, Hd, Hl; simpl. rewrite carregar_um_por_um_spec; simpl.
  fold documentos.
  destruct documentos as [|d ds] eqn:Hdocs; [left; now split|].
  right.
  destruct (split_fields w _ _ _) as [e|textos] eqn:Hsplit.
  { left. split; [discriminate|]. now exists e. }
  right.
  destruct (new_embeddings w _) as [e|] eqn:Hnew.
  { left. split; [discriminate|]. now exists textos, e. }
  right.
  destruct (from_documents w _ _) as [e|vs] eqn:Hemb.
  { left. split; [discriminate|]. exists textos, e.
    split; [ok|]. split; [ok|]. split; [|ok]. left. ok. }
  destruct (new_llm w _ _) as [e|] eqn:Hllm.
  { left. split; [discriminate|]. exists textos, e.
    split; [ok|]. split; [ok|]. split; [|ok].
    right. exists vs. split; [ok|]. left. ok. }
  destruct (new_chain w _) as [e|] eqn:Hchain.
  { left. split; [discriminate|]. exists textos, e.
    split; [ok|]. split; [ok|]. split; [|ok].
    right. exists vs. split; [ok|]. right. split; ok. }
  right. split; [discriminate|]. exists textos, vs. repeat split; ok.
Qed.

(** A call that hands back a chain has set the embedding service to work
    once. *)
Lemma carregar_built (evs : list event) (qa_chain : QAChain)
    (num_docs : option nat) :
  Chat.carregar_recursos w = (evs, Return (Some qa_chain, num_docs)) ->
  embeddings evs = 1.
Proof.
  unfold Chat.carregar_recursos.
  destruct (in_environ _ w); simpl; [|discriminate].
  destruct (isdir w _); simpl; [|discriminate].
  destruct (directory_lazy_load w _ _) as [items [e|]]; [discriminate|].
  destruct (Chat.carregar_um_por_um _ _ _ _) as [documentos erros].
  destruct documentos as [|d ds]; [discriminate|].
  destruct (split_fields w _ _ _) as [e|textos]; [discriminate|].
  destruct (new_embeddings w _) as [e|]; [discriminate|].
  destruct (from_documents w _ _) as [e|vs]; [discriminate|].
  destruct (new_llm w _ _) as [e|]; [discriminate|].
  destruct (new_chain w _) as [e|]; [discriminate|].
  intros [= <- _ _]. now rewrite embeddings_app, embeddings_avisos.
Qed.

(** A call answered from the cache runs nothing. *)
Lemma cache_hit {A : Type} (f : World -> list event * result A)
    (kept : Chat.Cached A) (w' : World) :
  Chat.cache_resource f (Some kept) w' =
  (map Shown (Chat.replayed kept), Return (Chat.value kept), Some kept).
Proof. reflexivity. Qed.

Lemma script_not_ready (app : Chat.App) (chat_input : option string)
    (evs : list event) (num_docs : option nat) :
  Chat.cache app = None ->
  Chat.carregar_recursos w = (evs, Return (None, num_docs)) ->
  Chat.script w app chat_input =
  ([Shown (StTitle Chat.page_title); Shown (StCaption Chat.page_caption)]
   ++ evs ++ [Shown (StWarning Chat.msg_not_ready)],
   Finished,
   {| Chat.cache :=
        Some {| Chat.value := (None, num_docs);
                Chat.replayed := Chat.shown_in evs |};
      Chat.messages := Chat.messages app;
      Chat.calls := Chat.calls app |}).
Proof.
  intros Hc He. unfold Chat.script, Chat.cache_resource.
  now rewrite Hc, He.
Qed.

(** A setup that raises takes the execution with it and leaves no trace
    in the state. *)
Lemma script_setup_raises (app : Chat.App) (chat_input : option string)
    (evs : list event) (e : string) :
  Chat.cache app = None ->
  Chat.carregar_recursos w = (evs, Raise e) ->
  Chat.script w app chat_input =
  ([Shown (StTitle Chat.page_title); Shown (StCaption Chat.page_caption)]
   ++ evs,
   Uncaught e,
   {| Chat.cache := None; Chat.messages := Chat.messages app;
      Chat.calls := Chat.calls app |}).
Proof.
  intros Hc He. unfold Chat.script, Chat.cache_resource.
  now rewrite Hc, He.
Qed.

End ChatSetup.

(** C3, the chat front-end: the failure of one file is not caught.  The
    generator raises it at the [for] statement, outside the [try]: the
    setup ends there with the exception, no line is kept or shown for the
    file, the files that were read before it are dropped with it, and the
    execution of the script ends with the exception, nothing cached and
    the question box never shown. *)
Theorem chat_bad_file_aborts_setup (w : World) (items : list Document)
    (e : string) (app : Chat.App) (chat_input : option string) :
  in_environ "GOOGLE_API_KEY" w = true ->
  isdir w DIRETORIO_BASE_CONHECIMENTO = true ->
  directory_lazy_load w DIRETORIO_BASE_CONHECIMENTO Chat.glob
  = (items, Some e) ->
  Chat.cache app = None ->
  Chat.carregar_recursos w = ([], Raise e) /\
  Chat.script w app chat_input =
  ([Shown (StTitle Chat.page_title); Shown (StCaption Chat.page_caption)],
   Uncaught e,
   {| Chat.cache := None; Chat.messages := Chat.messages app;
      Chat.calls := Chat.calls app |}).
Proof.
  intros Hk Hd Hl Hc.
  pose proof (carregar_bad_file w items e Hk Hd Hl) as Hrun.
  split; [exact Hrun|].
  now rewrite (script_setup_raises w app chat_input [] e Hc Hrun).
Qed.

Lemma chat_bad_file_aborts_setup_witness :
  Chat.carregar_recursos Sample.bad_file = ([], Raise "arquivo corrompido") /\
  Chat.script Sample.bad_file Chat.fresh (Some "oi") =
  ([Shown (StTitle Chat.page_title); Shown (StCaption Chat.page_caption)],
   Uncaught "arquivo corrompido",
   {| Chat.cache := None; Chat.messages := None; Chat.calls := 0 |}).
Proof.
  apply (chat_bad_file_aborts_setup Sample.bad_file
           [Sample.doc "Para redefinir a senha..."] "arquivo corrompido"
           Chat.fresh (Some "oi")).
  - vm_compute. reflexivity.
  - reflexivity.
  - reflexivity.
  - reflexivity.
Defined.

(** The same directory in the console front-end: the loader's exception
    is not caught there either, and the script ends with status 1 before
    it asks anything. *)
Example console_bad_file_run :
  let r := Console.main Sample.bad_file ["oi"; "sair"] in
  ended r = Uncaught "arquivo corrompido" /\
  exit_code (ended r) = 1%Z /\
  unread r = ["oi"; "sair"].
Proof. vm_compute. repeat split. Qed.

(** C4: when setup has no document to go on, because the directory is
    missing or because loading it gave none, both front-ends stop before
    the question loop and say why.  The console prints the message of the
    condition and leaves by [exit()] without reading a line; the chat page
    shows the error of the condition and the not-ready warning, shows no
    question box, calls the chain for nothing and leaves the transcript as
    it was.  The messages for a missing credential, a missing directory and
    no documents differ from each other. *)
Theorem setup_without_documents_stops (w : World) (stdin : list string)
    (app : Chat.App) (chat_input : option string) :
  (isdir w DIRETORIO_BASE_CONHECIMENTO = false \/
   directory_load w DIRETORIO_BASE_CONHECIMENTO Console.glob = Return [] ->
   Console.main w stdin =
   {| trace :=
        if in_environ "GOOGLE_API_KEY" w then
          if isdir w DIRETORIO_BASE_CONHECIMENTO then
            [Printed Console.msg_start; Printed Console.msg_loading;
             Printed Console.msg_no_docs]
          else
            [Printed Console.msg_start; Printed Console.msg_no_dir_1;
             Printed Console.msg_no_dir_2]
        else [Printed Console.msg_no_key_1; Printed Console.msg_no_key_2];
      ended := SystemExit None;
      unread := stdin |}) /\
  (isdir w DIRETORIO_BASE_CONHECIMENTO = false \/
   (exists items,
      directory_lazy_load w DIRETORIO_BASE_CONHECIMENTO Chat.glob
      = (items, None) /\
      flat_map (document_fields w) items = []) ->
   Chat.cache app = None ->
   exists kept,
     Chat.script w app chat_input =
     ([Shown (StTitle Chat.page_title); Shown (StCaption Chat.page_caption)]
      ++ (if in_environ "GOOGLE_API_KEY" w then
            if isdir w DIRETORIO_BASE_CONHECIMENTO then
              [Shown (StError Chat.msg_no_docs)]
            else [Shown (StError Chat.msg_no_dir)]
          else [Shown (StError Chat.msg_no_key)])
      ++ [Shown (StWarning Chat.msg_not_ready)],
      Finished,
      {| Chat.cache := kept; Chat.messages := Chat.messages app;
         Chat.calls := Chat.calls app |})) /\
  (Console.msg_no_docs <> Console.msg_no_dir_1 /\
   Console.msg_no_docs <> Console.msg_no_key_1 /\
   Console.msg_no_dir_1 <> Console.msg_no_key_1 /\
   Chat.msg_no_docs <> Chat.msg_no_dir /\
   Chat.msg_no_docs <> Chat.msg_no_key /\
   Chat.msg_no_dir <> Chat.msg_no_key).
Proof.
  split; [|split].
  - intros H.
    destruct (in_environ "GOOGLE_API_KEY" w) eqn:Hk;
      [|now apply main_no_key].
    destruct (isdir w DIRETORIO_BASE_CONHECIMENTO) eqn:Hd;
      [|now apply main_no_dir].
    destruct H as [H|H]; [discriminate|]. now apply main_no_docs.
  - intros H Hc.
    destruct (in_environ "GOOGLE_API_KEY" w) eqn:Hk.
    + destruct (isdir w DIRETORIO_BASE_CONHECIMENTO) eqn:Hd.
      * destruct H as [H|(items & Hl & Hn)]; [discriminate|]. eexists.
        apply script_not_ready; [exact Hc|].
        now apply (carregar_no_docs w items).
      * eexists. apply script_not_ready; [exact Hc|]. now apply carregar_no_dir.
    + eexists. apply script_not_ready; [exact Hc|]. now apply carregar_no_key.
  - repeat split; intros H; vm_compute in H; discriminate H.
Qed.

Lemma setup_without_documents_stops_witness :
  Console.main Sample.empty_dir ["oi"; "sair"] =
  {| trace := [Printed Console.msg_start; Printed Console.msg_loading;
               Printed Console.msg_no_docs];
     ended := SystemExit None; unread := ["oi"; "sair"] |} /\
  Console.main Sample.no_dir ["oi"; "sair"] =
  {| trace := [Printed Console.msg_start; Printed Console.msg_no_dir_1;
               Printed Console.msg_no_dir_2];
     ended := SystemExit None; unread := ["oi"; "sair"] |} /\
  exists kept,
    Chat.script Sample.empty_dir Chat.fresh (Some "oi") =
    ([Shown (StTitle Chat.page_title); Shown (StCaption Chat.page_caption);
      Shown (StError Chat.msg_no_docs); Shown (StWarning Chat.msg_not_ready)],
     Finished,
     {| Chat.cache := kept; Chat.messages := None; Chat.calls := 0 |}).
Proof.
  split; [|split].
  - apply (proj1 (setup_without_documents_stops Sample.empty_dir
                    ["oi"; "sair"] Chat.fresh None)).
    right. reflexivity.
  - apply (proj1 (setup_without_documents_stops Sample.no_dir
                    ["oi"; "sair"] Chat.fresh None)).
    left. reflexivity.
  - apply (proj1 (proj2 (setup_without_documents_stops Sample.empty_dir
                           [] Chat.fresh (Some "oi")))).
    + right. exists []. split; reflexivity.
    + reflexivity.
Defined.

(** C8: when a first call of the cached setup has built the chain, a second
    call in the same process and the same world hands back that chain and
    count, keeps the cache as it is and does not set the embedding service
    to work again: over the two calls the index is built once. *)
Theorem setup_built_once (w : World)
    (evs1 evs2 : list event)
    (r1 r2 : result (option QAChain * option nat))
    (kept1 kept2 : option (Chat.Cached (option QAChain * option nat)))
    (qa_chain : QAChain) (num_docs : option nat) :
  Chat.cache_resource Chat.carregar_recursos None w = (evs1, r1, kept1) ->
  Chat.cache_resource Chat.carregar_recursos kept1 w = (evs2, r2, kept2) ->
  r1 = Return (Some qa_chain, num_docs) ->
  r2 = Return (Some qa_chain, num_docs) /\
  kept2 = kept1 /\
  embeddings evs2 = 0 /\
  embeddings (evs1 ++ evs2) = 1.
Proof.
  unfold Chat.cache_resource at 1.
  destruct (Chat.carregar_recursos w) as [evs [e|v]] eqn:Hrun.
  { intros [= <- <- <-] _ ?. discriminate. }
  intros [= <- <- <-]. rewrite cache_hit. simpl.
  intros [= <- <- <-] [= ->].
  rewrite embeddings_app, embeddings_shown,
    (carregar_built w evs qa_chain num_docs Hrun).
  repeat split.
Qed.

Lemma setup_built_once_witness :
  let first := Chat.cache_resource Chat.carregar_recursos None Sample.world in
  let second :=
    Chat.cache_resource Chat.carregar_recursos (snd first) Sample.world in
  exists qa_chain,
    snd (fst second) = Return (Some qa_chain, Some 3) /\
    snd second = snd first /\
    embeddings (fst (fst second)) = 0 /\
    embeddings (fst (fst first) ++ fst (fst second)) = 1.
Proof.
  intros first second. eexists.
  apply (setup_built_once Sample.world
           (fst (fst first)) (fst (fst second))
           (snd (fst first)) (snd (fst second))
           (snd first) (snd second)).
  - vm_compute. reflexivity.
  - vm_compute. reflexivity.
  - vm_compute. reflexivity.
Defined.

(** Whatever the world has become by then, a later call is answered from
    the cache. *)
Remark setup_cached_for_any_world (w' : World)
    (kept : Chat.Cached (option QAChain * option nat)) :
  Chat.cache_resource Chat.carregar_recursos (Some kept) w' =
  (map Shown (Chat.replayed kept), Return (Chat.value kept), Some kept).
Proof. apply cache_hit. Qed.

(** ** The chat transcript *)

Section ChatTranscript.

Variable w : World.

Lemma responder_raise (qa_chain : QAChain) (n : nat) (prompt e : string) :
  invoke w qa_chain n prompt = Raise e ->
  Chat.responder w qa_chain n prompt = Chat.msg_apology +:+ e.
Proof. intros H. unfold Chat.responder. now rewrite H. Qed.

Lemma responder_malformed (qa_chain : QAChain) (n : nat) (prompt : string)
    (resultado : gmap string string) :
  invoke w qa_chain n prompt = Return resultado ->
  resultado !! "result" = None ->
  Chat.responder w qa_chain n prompt = Chat.msg_apology +:+ "'result'".
Proof. intros H Hn. unfold Chat.responder. now rewrite H, Hn. Qed.

Lemma responder_result (qa_chain : QAChain) (n : nat) (prompt : string)
    (resultado : gmap string string) (resposta : string) :
  invoke w qa_chain n prompt = Return resultado ->
  resultado !! "result" = Some resposta ->
  Chat.responder w qa_chain n prompt = resposta.
Proof. intros H Hn. unfold Chat.responder. now rewrite H, Hn. Qed.

(** What one execution does to the transcript: nothing, or it sets it
    up, or it appends the question and, right after it, one answer. *)
Lemma script_messages (app : Chat.App) (chat_input : option string) :
  let app' := snd (Chat.script w app chat_input) in
  Chat.messages app' = Chat.messages app \/
  Chat.messages app' = Some (historico app) \/
  exists qa_chain prompt,
    chat_input = Some prompt /\ Py.truthy prompt = true /\
    Chat.messages app' =
    Some (historico app ++
          [ {| role := "user"; content := prompt |};
            {| role := "assistant";
               content := Chat.responder w qa_chain (Chat.calls app) prompt |} ]).
Proof.
  unfold Chat.script, historico.
  destruct (Chat.cache_resource _ _ _) as [[evs [e|[[qa|] num_docs]]] kept];
    simpl; auto.
  destruct chat_input as [prompt|]; simpl; auto.
  destruct (Py.truthy prompt) eqn:Ht; simpl; auto.
  right; right. exists qa, prompt. rewrite <- app_assoc. auto.
Qed.

Lemma well_formed_historico (app : Chat.App) :
  (forall ms, Chat.messages app = Some ms -> well_formed ms) ->
  well_formed (historico app).
Proof.
  unfold historico. intros H.
  destruct (Chat.messages app) as [ms|]; [now apply H|].
  now exists [].
Qed.

Lemma well_formed_snoc (ms : list Turn) (q a : string) :
  well_formed ms ->
  well_formed (ms ++ [ {| role := "user"; content := q |};
                       {| role := "assistant"; content := a |} ]).
Proof.
  intros [qas ->]. exists (qas ++ [(q, a)]).
  unfold exchanges. now rewrite flat_map_app.
Qed.

Lemma script_well_formed (app : Chat.App) (chat_input : option string) :
  (forall ms, Chat.messages app = Some ms -> well_formed ms) ->
  forall ms, Chat.messages (snd (Chat.script w app chat_input)) = Some ms ->
  well_formed ms.
Proof.
  intros Hwf ms.
  destruct (script_messages app chat_input)
    as [-> | [-> | (qa & prompt & _ & _ & ->)]].
  - apply Hwf.
  - intros [= <-]. now apply well_formed_historico.
  - intros [= <-]. now apply well_formed_snoc, well_formed_historico.
Qed.

Lemma session_well_formed (inputs : list (option string)) :
  forall app : Chat.App,
  (forall ms, Chat.messages app = Some ms -> well_formed ms) ->
  forall ms, Chat.messages (Chat.session w app inputs) = Some ms ->
  well_formed ms.
Proof.
  induction inputs as [|chat_input rest IH]; intros app Hwf; simpl.
  - exact Hwf.
  - apply IH. now apply script_well_formed.
Qed.

End ChatTranscript.

(** C9: in the chat front-end the transcript, once it exists, is the fixed
    greeting of the assistant followed by pairs of one user turn and one
    assistant turn.  An execution of the script never removes or changes a
    turn.  When the setup hands it a chain and the input box brought a
    question, it appends to the transcript it found (the greeting alone,
    the first time) the user turn with the question and, right after it,
    one assistant turn with what the call of that chain for that question
    gave: the text of the result, or, when the call raised, the apology
    with the text of the error.  With no question it appends nothing, and
    when the setup hands no chain it leaves the transcript as it is. *)
Theorem chat_transcript_shape (w : World) (inputs : list (option string))
    (app : Chat.App) (chat_input : option string) :
  (forall ms, Chat.messages (Chat.session w Chat.fresh inputs) = Some ms ->
     exists qas, ms = Chat.greeting :: exchanges qas) /\
  (forall ms, Chat.messages app = Some ms ->
     exists more,
       Chat.messages (snd (Chat.script w app chat_input)) = Some (ms ++ more)) /\
  (forall evs qa_chain num_docs kept,
     Chat.cache_resource Chat.carregar_recursos (Chat.cache app) w =
       (evs, Return (Some qa_chain, num_docs), kept) ->
     (forall prompt, chat_input = Some prompt -> prompt <> "" ->
        Chat.messages (snd (Chat.script w app chat_input)) =
        Some (historico app ++
              [ {| role := "user"; content := prompt |};
                {| role := "assistant";
                   content :=
                     Chat.responder w qa_chain (Chat.calls app) prompt |} ]) /\
        (forall e,
           invoke w qa_chain (Chat.calls app) prompt = Raise e ->
           Chat.messages (snd (Chat.script w app chat_input)) =
           Some (historico app ++
                 [ {| role := "user"; content := prompt |};
                   {| role := "assistant";
                      content := Chat.msg_apology +:+ e |} ])) /\
        (forall resultado resposta,
           invoke w qa_chain (Chat.calls app) prompt = Return resultado ->
           resultado !! "result" = Some resposta ->
           Chat.messages (snd (Chat.script w app chat_input)) =
           Some (historico app ++
                 [ {| role := "user"; content := prompt |};
                   {| role := "assistant"; content := resposta |} ]))) /\
     (chat_input = None \/ chat_input = Some "" ->
        Chat.messages (snd (Chat.script w app chat_input)) =
        Some (historico app))) /\
  (forall evs outcome kept,
     Chat.cache_resource Chat.carregar_recursos (Chat.cache app) w =
       (evs, outcome, kept) ->
     (forall qa_chain num_docs, outcome <> Return (Some qa_chain, num_docs)) ->
     Chat.messages (snd (Chat.script w app chat_input)) = Chat.messages app).
Proof.
  split; [|split; [|split]].
  - apply session_well_formed. discriminate.
  - intros ms Hms.
    destruct (script_messages w app chat_input)
      as [H | [H | (qa & prompt & _ & _ & H)]];
      rewrite H; unfold historico; rewrite Hms.
    + exists []. now rewrite app_nil_r.
    + exists []. now rewrite app_nil_r.
    + now eexists.
  - intros evs qa num_docs kept Hsetup.
    assert (Hask : forall prompt, chat_input = Some prompt -> prompt <> "" ->
      Chat.messages (snd (Chat.script w app chat_input)) =
      Some (historico app ++
            [ {| role := "user"; content := prompt |};
              {| role := "assistant";
                 content := Chat.responder w qa (Chat.calls app) prompt |} ])).
    { intros prompt -> Hne. unfold Chat.script. rewrite Hsetup.
      destruct prompt as [|c prompt]; [contradiction|].
      simpl. unfold historico. now rewrite <- app_assoc. }
    split.
    + intros prompt Hin Hne. split; [now apply Hask|]. split.
      * intros e He. rewrite (Hask prompt Hin Hne).
        now rewrite (responder_raise w qa _ prompt e He).
      * intros resultado resposta Hr Hl. rewrite (Hask prompt Hin Hne).
        now rewrite (responder_result w qa _ prompt resultado resposta Hr Hl).
    + intros [-> | ->]; unfold Chat.script; rewrite Hsetup; reflexivity.
  - intros evs outcome kept Hsetup Hno. unfold Chat.script. rewrite Hsetup.
    destruct outcome as [e|[[qa|] num_docs]]; try reflexivity.
    now destruct (Hno qa num_docs).
Qed.

Lemma chat_transcript_shape_witness :
  (exists qas,
     [Chat.greeting;
      {| role := "user"; content := "oi" |};
      {| role := "assistant"; content := "Resposta para: oi" |};
      {| role := "user"; content := "de novo" |};
      {| role := "assistant";
         content := Chat.msg_apology +:+ "503 Service Unavailable" |}] =
     Chat.greeting :: exchanges qas) /\
  (let app := Chat.session Sample.world Chat.fresh [Some "oi"] in
   Chat.messages (snd (Chat.script Sample.world app (Some "de novo"))) =
   Some (historico app ++
         [ {| role := "user"; content := "de novo" |};
           {| role := "assistant";
              content := Chat.msg_apology +:+ "503 Service Unavailable" |} ])) /\
  Chat.messages (snd (Chat.script Sample.no_key Chat.fresh (Some "oi"))) =
  Chat.messages Chat.fresh.
Proof.
  split; [|split].
  - apply (proj1 (chat_transcript_shape Sample.world
                    [None; Some "oi"; Some "de novo"] Chat.fresh None)).
    vm_compute. reflexivity.
  - intros app.
    destruct (Chat.cache_resource Chat.carregar_recursos (Chat.cache app)
                Sample.world) as [[evs outcome] kept] eqn:Hsetup.
    destruct outcome as [e|[[qa|] nd]];
      try (vm_compute in Hsetup; discriminate Hsetup).
    destruct (proj1 (proj2 (proj2
                (chat_transcript_shape Sample.world [] app (Some "de novo"))))
                evs qa nd kept Hsetup) as [Hask _].
    destruct (Hask "de novo" eq_refl ltac:(discriminate)) as (_ & Hraise & _).
    apply Hraise. reflexivity.
  - apply (proj2 (proj2 (proj2
             (chat_transcript_shape Sample.no_key [] Chat.fresh (Some "oi"))))
             [Shown (StError Chat.msg_no_key)] (Return (None, None))
             (Some {| Chat.value := (None, None);
                      Chat.replayed := [StError Chat.msg_no_key] |})).
    + reflexivity.
    + discriminate.
Defined.

(** The scenario of the spec in the chat front-end: the question asked
    during the outage gets the apology, the one after it is answered. *)
Example chat_outage_contained :
  Chat.messages
    (Chat.session Sample.world Chat.fresh
       [Some "oi"; Some "de novo"; Some "mais uma"]) =
  Some [Chat.greeting;
        {| role := "user"; content := "oi" |};
        {| role := "assistant"; content := "Resposta para: oi" |};
        {| role := "user"; content := "de novo" |};
        {| role := "assistant";
           content := Chat.msg_apology +:+ "503 Service Unavailable" |};
        {| role := "user"; content := "mais uma" |};
        {| role := "assistant"; content := "Resposta para: mais uma" |}].
Proof. vm_compute. reflexivity. Qed.

(** ** The console pattern *)

Section ConsoleGlob.

Lemma fnmatch_star_unfold (pat name : string) :
  Glob.fnmatch (String "*" pat) name =
  Glob.fnmatch pat name ||
  match name with
  | EmptyString => false
  | String _ name' => Glob.fnmatch (String "*" pat) name'
  end.
Proof. destruct name; reflexivity. Qed.

Lemma fnmatch_star (name : string) : Glob.fnmatch "*" name = true.
Proof.
  induction name as [|c name IH]; [reflexivity|].
  rewrite fnmatch_star_unfold, IH. apply orb_true_r.
Qed.

Lemma fnmatch_dot_star (name : string) :
  Glob.fnmatch ".*" name = String.prefix "." name.
Proof.
  destruct name as [|c name]; [reflexivity|].
  change (Glob.fnmatch ".*" (String c name))
    with ((Ascii.eqb "." "?" || Ascii.eqb "." c) && Glob.fnmatch "*" name).
  rewrite fnmatch_star, andb_true_r.
  change (Ascii.eqb "." "?") with false. rewrite orb_false_l.
  change (String.prefix "." (String c name))
    with (if ascii_dec "." c then String.prefix "" name else false).
  destruct (ascii_dec "." c) as [<-|Hne].
  - rewrite Ascii.eqb_refl. now destruct name.
  - now apply Ascii.eqb_neq.
Qed.

(** [*.*] matches the names that have a dot. *)
Lemma fnmatch_star_dot_star (name : string) :
  Glob.fnmatch "*.*" name = Py.contains "." name.
Proof.
  induction name as [|c name IH].
  - reflexivity.
  - rewrite fnmatch_star_unfold, fnmatch_dot_star, IH. reflexivity.
Qed.

Lemma glob_deep_unfold (pat path : list string) :
  Glob.glob_match ("**" :: pat) path =
  Glob.glob_match pat path ||
  match path with
  | [] => false
  | _ :: path' => Glob.glob_match ("**" :: pat) path'
  end.
Proof. destruct path; reflexivity. Qed.

(** [**/p] goes by the last component. *)
Lemma glob_deep_last (p : string) (path : list string) :
  String.eqb p "**" = false ->
  Glob.glob_match ["**"; p] path =
  match path with
  | [] => false
  | _ :: _ => Glob.fnmatch p (List.last path "")
  end.
Proof.
  intros Hp. induction path as [|c rest IH]; [simpl; now rewrite Hp|].
  rewrite glob_deep_unfold, IH.
  change (Glob.glob_match [p] (c :: rest))
    with (if String.eqb p "**"
          then Glob.glob_match ["**"] (c :: rest)
          else Glob.fnmatch p c && Glob.glob_match [] rest).
  rewrite Hp. destruct rest as [|r rs]; simpl.
  - now rewrite andb_true_r, orb_false_r.
  - now rewrite andb_false_r.
Qed.

Lemma basename_no_slash (p : string) :
  Py.has_slash p = false -> Py.basename p = p.
Proof. destruct p as [|c p]; simpl; [reflexivity|]. now intros ->. Qed.

(** The last component of [split("/")] is the base name. *)
Lemma components_last (p : string) :
  exists h t,
    Glob.components p = h :: t /\
    List.last (h :: t) "" = Py.basename p /\
    (Py.has_slash p = false -> t = [] /\ h = p) /\
    (Py.has_slash p = true -> t <> []).
Proof.
  induction p as [|c p (h & t & Hc & Hl & Hno & Hyes)].
  - exists "", []. repeat split; discriminate.
  - simpl. destruct (Ascii.eqb c "/") eqn:Hslash; simpl.
    + exists "", (h :: t). rewrite Hc. repeat split; try discriminate.
      exact Hl.
    + rewrite Hc. exists (String c h), t. split; [reflexivity|].
      destruct (Py.has_slash p) eqn:Hp.
      * specialize (Hyes eq_refl). repeat split; try discriminate; trivial.
        destruct t as [|t0 ts]; [contradiction|]. exact Hl.
      * destruct (Hno eq_refl) as [-> ->].
        repeat split; try discriminate; trivial.
Qed.

Lemma selects_console_glob (path : string) :
  Glob.selects Console.glob path = Py.contains "." (Py.basename path).
Proof.
  unfold Glob.selects.
  change (Glob.components Console.glob) with ["**"; "*.*"].
  rewrite glob_deep_last by reflexivity.
  destruct (components_last path) as (h & t & -> & <- & _).
  apply fnmatch_star_dot_star.
Qed.

Lemma contains_step (x : string) (c : ascii) (t : string) :
  Py.contains x t = true -> Py.contains x (String c t) = true.
Proof. intros H. simpl. rewrite H. apply orb_true_r. Qed.

(** A path that ends in a dot and a word without slash has a dot in its
    base name. *)
Lemma endswith_dotted (path ext : string) :
  Py.has_slash ext = false ->
  Glob.endswith path ("." +:+ ext) = true ->
  Py.contains "." (Py.basename path) = true.
Proof.
  intros Hext. induction path as [|c path IH]; [discriminate|].
  change (Glob.endswith (String c path) ("." +:+ ext))
    with (String.eqb (String c path) ("." +:+ ext)
          || Glob.endswith path ("." +:+ ext)).
  intros [Heq|Hrest]%orb_true_iff.
  - apply String.eqb_eq in Heq. rewrite Heq.
    rewrite basename_no_slash by (simpl; exact Hext).
    apply (contains_here "." ext).
  - specialize (IH Hrest). simpl.
    destruct (Ascii.eqb c "/" || Py.has_slash path) eqn:Hs; [exact IH|].
    apply orb_false_iff in Hs as [_ Hs].
    rewrite basename_no_slash in IH by exact Hs.
    now apply contains_step.
Qed.

Lemma accepted_no_slash :
  Forall (fun ext => Py.has_slash ext = false) Glob.accepted.
Proof. repeat constructor. Qed.

End ConsoleGlob.

(** C6, as the code has it: the console front-end gives the loader the
    pattern [**/*.*], so the loader takes a file, at any depth, exactly
    when the file is not hidden (no component of its path starts with a
    dot) and its name has a dot, whatever follows the dot.  Every file
    that is not hidden and whose extension is in the accepted set is
    taken, and so are files with other extensions. *)
Theorem console_loader_takes_dotted_names (path : string) :
  Glob.enumerates Console.glob path =
    Py.contains "." (Py.basename path) && Glob.visible path /\
  (Glob.has_accepted_extension path = true -> Glob.visible path = true ->
   Glob.enumerates Console.glob path = true).
Proof.
  unfold Glob.enumerates. rewrite selects_console_glob.
  split; [reflexivity|].
  intros H Hv. rewrite Hv, andb_true_r.
  apply existsb_exists in H as (ext & Hin & Hends).
  apply (endswith_dotted path ext); [|exact Hends].
  pose proof accepted_no_slash as Hall.
  rewrite List.Forall_forall in Hall. now apply Hall.
Qed.

Lemma console_loader_takes_dotted_names_witness :
  Glob.enumerates Console.glob "rh/politicas/ferias.docx" = true.
Proof.
  apply (proj2 (console_loader_takes_dotted_names "rh/politicas/ferias.docx"));
    reflexivity.
Defined.

(** C6, counterexample: the console loader takes an installer, whose
    extension is not in the accepted set, and leaves out a hidden text
    file, whose extension is. *)
Lemma console_loader_not_by_extension :
  (Glob.enumerates Console.glob "ferramentas/instalador.exe" = true /\
   Glob.has_accepted_extension "ferramentas/instalador.exe" = false) /\
  (Glob.has_accepted_extension ".oculto.txt" = true /\
   Glob.enumerates Console.glob ".oculto.txt" = false) /\
  (Glob.has_accepted_extension ".git/config.txt" = true /\
   Glob.enumerates Console.glob ".git/config.txt" = false).
Proof. repeat split. Qed.

(** The pattern of the chat front-end, read by [fnmatch]: braces are
    ordinary characters there, so the pattern asks for a name that ends in
    the whole brace group. *)
Remark chat_glob_braces_literal :
  Glob.selects Chat.glob "manual.txt" = false /\
  Glob.selects Chat.glob "rh/manual.{txt,pdf,docx,md,sql,csv,doc,png,pptx,xlsx}"
  = true.
Proof. split; reflexivity. Qed.

(** ** The chunker's parameters *)

(** Both front-ends build the splitter with an overlap smaller than the
    chunk size, as its contract asks. *)
Remark chunk_parameters_admissible : chunk_overlap < chunk_size.
Proof. unfold chunk_overlap, chunk_size. lia. Qed.

(** * Further properties of the two scripts *)

(** ** The console loop, line by line *)

Section ConsoleLines.

Variable w : World.
Variable qa_chain : QAChain.

Lemma lower_char_s (c : ascii) :
  Py.lower_char c = "s"%char <-> c = "s"%char \/ c = "S"%char.
Proof.
  split.
  - destruct c as [[] [] [] [] [] [] [] []]; vm_compute; intros H;
      first [discriminate H | left; reflexivity | right; reflexivity].
  - intros [-> | ->]; reflexivity.
Qed.

Lemma lower_char_a (c : ascii) :
  Py.lower_char c = "a"%char <-> c = "a"%char \/ c = "A"%char.
Proof.
  split.
  - destruct c as [[] [] [] [] [] [] [] []]; vm_compute; intros H;
      first [discriminate H | left; reflexivity | right; reflexivity].
  - intros [-> | ->]; reflexivity.
Qed.

Lemma lower_char_i (c : ascii) :
  Py.lower_char c = "i"%char <-> c = "i"%char \/ c = "I"%char.
Proof.
  split.
  - destruct c as [[] [] [] [] [] [] [] []]; vm_compute; intros H;
      first [discriminate H | left; reflexivity | right; reflexivity].
  - intros [-> | ->]; reflexivity.
Qed.

Lemma lower_char_r (c : ascii) :
  Py.lower_char c = "r"%char <-> c = "r"%char \/ c = "R"%char.
Proof.
  split.
  - destruct c as [[] [] [] [] [] [] [] []]; vm_compute; intros H;
      first [discriminate H | left; reflexivity | right; reflexivity].
  - intros [-> | ->]; reflexivity.
Qed.

Lemma lower_sair_spellings (line : string) :
  Py.lower line = "sair" <->
  exists c1 c2 c3 c4 : ascii,
    line = String c1 (String c2 (String c3 (String c4 ""))) /\
    (c1 = "s" \/ c1 = "S")%char /\ (c2 = "a" \/ c2 = "A")%char /\
    (c3 = "i" \/ c3 = "I")%char /\ (c4 = "r" \/ c4 = "R")%char.
Proof.
  split.
  - destruct line as [|c1 [|c2 [|c3 [|c4 [|c5 more]]]]]; simpl; intros H;
      try discriminate H.
    injection H as H1 H2 H3 H4.
    exists c1, c2, c3, c4. split; [reflexivity|].
    now rewrite <- lower_char_s, <- lower_char_a, <- lower_char_i,
      <- lower_char_r.
  - intros (c1 & c2 & c3 & c4 & -> & H1 & H2 & H3 & H4). simpl.
    apply lower_char_s in H1. apply lower_char_a in H2.
    apply lower_char_i in H3. apply lower_char_r in H4.
    now rewrite H1, H2, H3, H4.
Qed.

(** Every run of the loop starts by asking. *)
Lemma loop_trace_head (n : nat) (stdin : list string) :
  exists tail,
    trace (Console.loop w qa_chain n stdin) = Asked Console.prompt :: tail.
Proof.
  destruct stdin as [|line rest]; [now eexists|].
  destruct (String.eqb_spec (Py.lower line) "sair") as [Hs|Hs].
  { rewrite loop_sair by exact Hs. now eexists. }
  destruct (Py.all_space line) eqn:Hb.
  { rewrite loop_blank by exact Hb. now eexists. }
  rewrite loop_question by assumption.
  destruct (invoke w qa_chain n line) as [e|resultado]; [now eexists|].
  destruct (resultado !! "result"); now eexists.
Qed.

Lemma questions_app (evs1 evs2 : list event) :
  questions (evs1 ++ evs2) = questions evs1 ++ questions evs2.
Proof.
  induction evs1 as [|[] evs1 IH]; simpl; auto. now rewrite IH.
Qed.

Lemma outputs_app (evs1 evs2 : list event) :
  outputs (evs1 ++ evs2) = outputs evs1 ++ outputs evs2.
Proof.
  induction evs1 as [|[] evs1 IH]; simpl; auto; now rewrite IH.
Qed.

End ConsoleLines.

(** X1: the farewell run, in which the console reads one line, says
    goodbye and stops, happens for exactly the sixteen spellings of [sair]
    in upper and lower case: four characters, nothing before or after. *)
Theorem console_exit_spellings (w : World) (qa_chain : QAChain) (n : nat)
    (line : string) (rest : list string) :
  Console.loop w qa_chain n (line :: rest) =
    {| trace := [Asked Console.prompt; Printed Console.msg_bye];
       ended := Finished; unread := rest |} <->
  exists c1 c2 c3 c4 : ascii,
    line = String c1 (String c2 (String c3 (String c4 ""))) /\
    (c1 = "s" \/ c1 = "S")%char /\ (c2 = "a" \/ c2 = "A")%char /\
    (c3 = "i" \/ c3 = "I")%char /\ (c4 = "r" \/ c4 = "R")%char.
Proof.
  rewrite <- lower_sair_spellings. split.
  - intros H.
    destruct (String.eqb_spec (Py.lower line) "sair") as [Hs|Hs]; [exact Hs|].
    exfalso. destruct (Py.all_space line) eqn:Hb.
    + rewrite loop_blank in H by exact Hb.
      destruct (loop_trace_head w qa_chain n rest) as [tail Ht].
      apply (f_equal trace) in H. simpl in H. rewrite Ht in H. discriminate H.
    + rewrite loop_question in H by assumption.
      destruct (invoke w qa_chain n line) as [e|resultado]; [discriminate H|].
      destruct (resultado !! "result"); [|discriminate H].
      apply (f_equal trace) in H. simpl in H. discriminate H.
  - apply loop_sair.
Qed.

(** X2: the questions the console sends to the chain are, in order and as
    they were typed, the lines with a character other than white space
    that come before the first exit command; the run may stop short of the
    last of them, and when it ends normally it has sent them all. *)
Theorem console_questions_sent (w : World) (qa_chain : QAChain)
    (stdin : list string) (n : nat) :
  (exists unsent,
     nonblank (before_sair stdin) =
     questions (trace (Console.loop w qa_chain n stdin)) ++ unsent) /\
  (ended (Console.loop w qa_chain n stdin) = Finished ->
   questions (trace (Console.loop w qa_chain n stdin)) =
   nonblank (before_sair stdin)).
Proof.
  revert n. induction stdin as [|line rest IH]; intros n.
  { split; [now exists [] | discriminate]. }
  destruct (String.eqb_spec (Py.lower line) "sair") as [Hs|Hs].
  { rewrite loop_sair by exact Hs. simpl. rewrite Hs. simpl.
    split; [now exists [] | reflexivity]. }
  assert (Hbefore : before_sair (line :: rest) = line :: before_sair rest).
  { simpl. now destruct (String.eqb_spec (Py.lower line) "sair"). }
  rewrite Hbefore. unfold nonblank. simpl List.filter.
  destruct (Py.all_space line) eqn:Hb; simpl negb; cbv iota.
  { rewrite loop_blank by exact Hb. simpl. apply IH. }
  rewrite loop_question by assumption.
  destruct (invoke w qa_chain n line) as [e|resultado].
  { simpl. split; [now eexists | discriminate]. }
  destruct (resultado !! "result") as [resposta|].
  - simpl. destruct (IH (S n)) as [[unsent Hpre] Hall]. split.
    + exists unsent. f_equal. exact Hpre.
    + intros Hend. f_equal. now apply Hall.
  - simpl. split; [now eexists | discriminate].
Qed.

Lemma console_questions_sent_witness :
  questions (trace (Console.loop Sample.world Sample.qa_chain 0
                      ["  oi "; Py.utf8 [194; 160]; "SAIR"; "tarde demais"])) =
  nonblank (before_sair ["  oi "; Py.utf8 [194; 160]; "SAIR"; "tarde demais"]).
Proof.
  apply (proj2 (console_questions_sent Sample.world Sample.qa_chain
                  ["  oi "; Py.utf8 [194; 160]; "SAIR"; "tarde demais"] 0)).
  vm_compute. reflexivity.
Defined.

(** X3: blank lines change nothing but the number of prompts: without
    them the console ends the same way and prints, sends and receives the
    same things in the same order. *)
Theorem console_blank_lines_invisible (w : World) (qa_chain : QAChain)
    (stdin : list string) (n : nat) :
  ended (Console.loop w qa_chain n (nonblank stdin)) =
    ended (Console.loop w qa_chain n stdin) /\
  outputs (trace (Console.loop w qa_chain n (nonblank stdin))) =
    outputs (trace (Console.loop w qa_chain n stdin)).
Proof.
  revert n. induction stdin as [|line rest IH]; intros n; [now split|].
  unfold nonblank. simpl List.filter.
  destruct (Py.all_space line) eqn:Hb; simpl negb; cbv iota.
  { rewrite (loop_blank w qa_chain n line rest Hb). simpl. apply IH. }
  fold (nonblank rest).
  destruct (String.eqb_spec (Py.lower line) "sair") as [Hs|Hs].
  { rewrite !loop_sair by exact Hs. now split. }
  rewrite !loop_question by assumption.
  destruct (invoke w qa_chain n line) as [e|resultado]; [now split|].
  destruct (resultado !! "result") as [resposta|]; [|now split].
  simpl. destruct (IH (S n)) as [He Ho]. split; [exact He|].
  now rewrite Ho.
Qed.

(** X4: when standard input runs out before any exit command, and the
    chain answers every question, the console has sent every line with
    something in it, asks once more and dies of [EOFError], with
    status 1. *)
Theorem console_end_of_input (w : World) (qa_chain : QAChain)
    (stdin : list string) (n : nat) :
  (forall m query, exists resultado resposta,
     invoke w qa_chain m query = Return resultado /\
     resultado !! "result" = Some resposta) ->
  Forall (fun line => Py.lower line <> "sair") stdin ->
  ended (Console.loop w qa_chain n stdin) = Uncaught Console.eof_error /\
  exit_code (ended (Console.loop w qa_chain n stdin)) = 1%Z /\
  unread (Console.loop w qa_chain n stdin) = [] /\
  questions (trace (Console.loop w qa_chain n stdin)) = nonblank stdin.
Proof.
  intros Hanswers Hall. revert n.
  induction Hall as [|line rest Hs _ IH]; intros n; [now repeat split|].
  unfold nonblank. simpl List.filter.
  destruct (Py.all_space line) eqn:Hb; simpl negb; cbv iota.
  { rewrite loop_blank by exact Hb. simpl. apply IH. }
  rewrite loop_question by assumption.
  destruct (Hanswers n line) as (resultado & resposta & -> & ->).
  simpl. destruct (IH (S n)) as (He & Hc & Hu & Hq).
  repeat split; trivial. f_equal. exact Hq.
Qed.

Lemma console_end_of_input_witness :
  ended (Console.loop answering Sample.qa_chain 0 ["oi"; Py.utf8 [226; 128; 131]; "exit"]) =
    Uncaught Console.eof_error /\
  exit_code
    (ended (Console.loop answering Sample.qa_chain 0 ["oi"; Py.utf8 [226; 128; 131]; "exit"])) =
    1%Z /\
  unread (Console.loop answering Sample.qa_chain 0 ["oi"; Py.utf8 [226; 128; 131]; "exit"]) = [] /\
  questions
    (trace (Console.loop answering Sample.qa_chain 0 ["oi"; Py.utf8 [226; 128; 131]; "exit"])) =
  nonblank ["oi"; Py.utf8 [226; 128; 131]; "exit"].
Proof.
  apply (console_end_of_input answering Sample.qa_chain ["oi"; Py.utf8 [226; 128; 131]; "exit"] 0).
  - intros m query. eexists _, _. split; [reflexivity|].
    apply lookup_singleton_eq.
  - repeat constructor; vm_compute; discriminate.
Defined.

Local Ltac no_prompt :=
  let H := fresh "H" in
  intros H; repeat (destruct H as [H|H]; [discriminate H|]); destruct H.

(** X5: the console asks its first question only after the whole setup
    went through: the credential is set, the directory exists, the loader
    returned at least one document, the splitter returned and the
    embedding of its chunks returned; the loop then runs on the chain built
    on that vector store, with temperature 0 and the sources switched
    on. *)
Theorem console_prompt_needs_setup (w : World) (stdin : list string)
    (p : string) :
  In (Asked p) (trace (Console.main w stdin)) ->
  in_environ "GOOGLE_API_KEY" w = true /\
  isdir w DIRETORIO_BASE_CONHECIMENTO = true /\
  exists documentos textos vector_store evs,
    documentos <> [] /\
    directory_load w DIRETORIO_BASE_CONHECIMENTO Console.glob =
      Return documentos /\
    split_documents w chunk_size chunk_overlap documentos = Return textos /\
    from_documents w textos embedding_model = Return vector_store /\
    Console.main w stdin =
    after evs
      (Console.loop w
         {| llm_model := gemini_model; temperature_tenths := 0;
            chain_type := "stuff"; retriever := vector_store;
            return_source_documents := true |} 0 stdin).
Proof.
  unfold Console.main.
  destruct (in_environ _ w); simpl; [|no_prompt].
  destruct (isdir w _); simpl; [|no_prompt].
  destruct (directory_load w _ _) as [e|[|d ds]] eqn:Hload; simpl;
    [no_prompt | no_prompt |].
  destruct (split_documents w _ _ _) as [e|textos] eqn:Hsplit; simpl;
    [no_prompt|].
  destruct (new_embeddings w _) as [e|] eqn:Hnew; simpl; [no_prompt|].
  destruct (from_documents w _ _) as [e|vs] eqn:Hemb; simpl; [no_prompt|].
  destruct (new_llm w _ _) as [e|] eqn:Hllm; simpl; [no_prompt|].
  destruct (new_chain w _) as [e|] eqn:Hchain; simpl; [no_prompt|].
  intros _. repeat split.
  exists (d :: ds), textos, vs. eexists. repeat split; try eassumption.
  discriminate.
Qed.

Lemma console_prompt_needs_setup_witness :
  in_environ "GOOGLE_API_KEY" Sample.world = true /\
  isdir Sample.world DIRETORIO_BASE_CONHECIMENTO = true /\
  exists documentos textos vector_store evs,
    documentos <> [] /\
    directory_load Sample.world DIRETORIO_BASE_CONHECIMENTO Console.glob =
      Return documentos /\
    split_documents Sample.world chunk_size chunk_overlap documentos =
      Return textos /\
    from_documents Sample.world textos embedding_model =
      Return vector_store /\
    Console.main Sample.world ["sair"] =
    after evs
      (Console.loop Sample.world
         {| llm_model := gemini_model; temperature_tenths := 0;
            chain_type := "stuff"; retriever := vector_store;
            return_source_documents := true |} 0 ["sair"]).
Proof.
  apply (console_prompt_needs_setup Sample.world ["sair"] Console.prompt).
  vm_compute. do 11 right. left. reflexivity.
Defined.

(** ** Setup and executions of the chat script *)

Section ChatRuns.

Variable w : World.

Lemma embeddings_mostrar (ms : list Turn) :
  embeddings (map Chat.mostrar ms) = 0.
Proof. induction ms; simpl; auto. Qed.

Lemma questions_shown (els : list element) :
  questions (map Shown els) = [].
Proof. induction els; simpl; auto. Qed.

Lemma questions_mostrar (ms : list Turn) :
  questions (map Chat.mostrar ms) = [].
Proof. induction ms; simpl; auto. Qed.

(** Once something is kept, the script runs on it. *)
Lemma script_cached (w' : World) (app : Chat.App)
    (kept : Chat.Cached (option QAChain * option nat))
    (chat_input : option string) :
  Chat.cache app = Some kept ->
  Chat.cache (snd (Chat.script w' app chat_input)) = Some kept /\
  embeddings (fst (fst (Chat.script w' app chat_input))) = 0 /\
  (fst (Chat.value kept) = None ->
   Chat.messages (snd (Chat.script w' app chat_input)) = Chat.messages app /\
   questions (fst (fst (Chat.script w' app chat_input))) = [] /\
   In (Shown (StWarning Chat.msg_not_ready))
      (fst (fst (Chat.script w' app chat_input)))).
Proof.
  intros Hc. unfold Chat.script. rewrite Hc, cache_hit.
  destruct (Chat.value kept) as [[qa|] num_docs]; simpl.
  - destruct chat_input as [prompt|]; [destruct (Py.truthy prompt)|]; simpl;
      (split; [reflexivity|]); (split; [|discriminate]);
      repeat (rewrite embeddings_app || rewrite embeddings_shown
              || rewrite embeddings_mostrar || simpl);
      reflexivity.
  - split; [reflexivity|]. split.
    + now rewrite embeddings_app, embeddings_shown.
    + intros _. split; [reflexivity|]. split.
      * now rewrite questions_app, questions_shown.
      * right. right. apply in_or_app. right. now left.
Qed.

End ChatRuns.

(** X8: what the cache keeps, it keeps: after the first call that
    returned, no execution of the chat script, in whatever world, changes
    the kept value or sets the embedding service to work again. *)
Theorem chat_cache_sticks (w' : World) (inputs : list (option string))
    (app : Chat.App) (kept : Chat.Cached (option QAChain * option nat)) :
  Chat.cache app = Some kept ->
  Chat.cache (Chat.session w' app inputs) = Some kept /\
  embeddings (chat_session_trace w' app inputs) = 0.
Proof.
  revert app. induction inputs as [|chat_input rest IH]; intros app Hc.
  - now split.
  - destruct (script_cached w' app kept chat_input Hc) as (Hc' & He & _).
    destruct (IH _ Hc') as [Hk Hz]. simpl. split; [exact Hk|].
    now rewrite embeddings_app, He, Hz.
Qed.

Lemma chat_cache_sticks_witness :
  let app := Chat.session Sample.world Chat.fresh [None] in
  exists kept,
    Chat.cache (Chat.session Sample.no_key app [Some "oi"; None]) = Some kept /\
    embeddings (chat_session_trace Sample.no_key app [Some "oi"; None]) = 0.
Proof.
  intros app. eexists.
  apply (chat_cache_sticks Sample.no_key [Some "oi"; None] app).
  vm_compute. reflexivity.
Defined.

(** X9: a setup that came back without a chain is kept like any other: if
    the first execution found no credential, no directory or no document,
    every later execution, even in a world where they are there, shows the
    not-ready warning, sends nothing to the chain and never starts a
    transcript. *)
Theorem chat_failed_setup_sticks (w w' : World) (app : Chat.App)
    (chat_input : option string) (evs : list event) (num_docs : option nat)
    (inputs : list (option string)) :
  Chat.cache app = None ->
  Chat.carregar_recursos w = (evs, Return (None, num_docs)) ->
  let app1 := snd (Chat.script w app chat_input) in
  Chat.messages (Chat.session w' app1 inputs) = Chat.messages app /\
  questions (chat_session_trace w' app1 inputs) = [] /\
  embeddings (chat_session_trace w' app1 inputs) = 0 /\
  (forall later,
     In (Shown (StWarning Chat.msg_not_ready))
        (fst (fst (Chat.script w' (Chat.session w' app1 inputs) later)))).
Proof.
  intros Hc Hrun app1.
  assert (H1 : exists kept,
             Chat.cache app1 = Some kept /\ fst (Chat.value kept) = None /\
             Chat.messages app1 = Chat.messages app).
  { unfold app1. rewrite (script_not_ready w app chat_input evs num_docs Hc Hrun).
    simpl. eexists. repeat split. }
  destruct H1 as (kept & Hk & Hv & Hm). rewrite <- Hm.
  clearbody app1. clear Hm Hc Hrun. revert app1 Hk.
  induction inputs as [|ci rest IH]; intros app1 Hk.
  - simpl. repeat split. intros later.
    now apply (script_cached w' app1 kept later Hk).
  - destruct (script_cached w' app1 kept ci Hk) as (Hk' & He & Hrest).
    destruct (Hrest Hv) as (Hm & Hq & _).
    destruct (IH _ Hk') as (IHm & IHq & IHe & IHw). simpl.
    rewrite questions_app, embeddings_app, Hq, He, IHq, IHe, IHm, Hm.
    repeat split. exact IHw.
Qed.

Lemma chat_failed_setup_sticks_witness :
  let app1 := snd (Chat.script Sample.no_key Chat.fresh None) in
  Chat.messages (Chat.session Sample.world app1 [Some "oi"]) = None /\
  questions (chat_session_trace Sample.world app1 [Some "oi"]) = [] /\
  embeddings (chat_session_trace Sample.world app1 [Some "oi"]) = 0 /\
  (forall later,
     In (Shown (StWarning Chat.msg_not_ready))
        (fst (fst (Chat.script Sample.world
                     (Chat.session Sample.world app1 [Some "oi"]) later)))).
Proof.
  apply (chat_failed_setup_sticks Sample.no_key Sample.world Chat.fresh None
           [Shown (StError Chat.msg_no_key)] None [Some "oi"]).
  - reflexivity.
  - vm_compute. reflexivity.
Defined.

Section ChatFailures.

Variable w : World.

(** What the setup raises, one of its collaborators raised. *)
Lemma carregar_raises_inv (e : string) :
  snd (Chat.carregar_recursos w) = Raise e ->
  in_environ "GOOGLE_API_KEY" w = true /\
  isdir w DIRETORIO_BASE_CONHECIMENTO = true /\
  exists items,
    directory_lazy_load w DIRETORIO_BASE_CONHECIMENTO Chat.glob
    = (items, Some e) \/
    directory_lazy_load w DIRETORIO_BASE_CONHECIMENTO Chat.glob
    = (items, None) /\
    (split_fields w chunk_size chunk_overlap
       (flat_map (document_fields w) items) = Raise e \/
     exists textos,
       split_fields w chunk_size chunk_overlap
         (flat_map (document_fields w) items) = Return textos /\
       (new_embeddings w embedding_model = Some e \/
        new_embeddings w embedding_model = None /\
        (from_documents w textos embedding_model = Raise e \/
         exists vector_store,
           from_documents w textos embedding_model = Return vector_store /\
           (new_llm w gemini_model 3 = Some e \/
            new_llm w gemini_model 3 = None /\
            new_chain w
              {| llm_model := gemini_model; temperature_tenths := 3;
                 chain_type := "stuff"; retriever := vector_store;
                 return_source_documents := false |} = Some e)))).
Proof.
  intros Hrun.
  assert (Hk : in_environ "GOOGLE_API_KEY" w = true).
  { destruct (in_environ "GOOGLE_API_KEY" w) eqn:Hk; [reflexivity|].
    rewrite carregar_no_key in Hrun by exact Hk. discriminate Hrun. }
  assert (Hd : isdir w DIRETORIO_BASE_CONHECIMENTO = true).
  { destruct (isdir w DIRETORIO_BASE_CONHECIMENTO) eqn:Hd; [reflexivity|].
    rewrite carregar_no_dir in Hrun by assumption. discriminate Hrun. }
  split; [exact Hk|]. split; [exact Hd|].
  destruct (directory_lazy_load w DIRETORIO_BASE_CONHECIMENTO Chat.glob)
    as [items [e'|]] eqn:Hl.
  { rewrite (carregar_bad_file w items e' Hk Hd Hl) in Hrun.
    injection Hrun as ->. exists items. now left. }
  exists items. right. split; [reflexivity|].
  destruct (carregar_cases w items Hk Hd Hl)
    as [[_ H] | [[_ (e' & Hs & H)] | [[_ (t & e' & Hs & Hn & H)]
       | [[_ (t & e' & Hs & Hn & Hc & H)] | [_ (t & vs & _ & _ & _ & _ & _ & H)]]]]];
    rewrite H in Hrun; try discriminate Hrun; injection Hrun as ->.
  - now left.
  - right. exists t. split; [exact Hs|]. now left.
  - right. exists t. split; [exact Hs|]. right. split; [exact Hn|]. exact Hc.
Qed.

End ChatFailures.

(** X10: an execution of the chat script can only die in setup: when an
    exception gets out, nothing was kept before, the setup itself raised
    it, nothing is kept after, and the transcript and the call count are
    as they were.  The setup raises only what one of its collaborators
    raised: the loader at a file it cannot read, the splitter, the
    constructor of the embeddings, the building of the vector store, the
    constructor of the language model or that of the chain.  A failure of
    the chain while it answers never gets out. *)
Theorem chat_only_setup_raises (w : World) (app : Chat.App)
    (chat_input : option string) (e : string) :
  snd (fst (Chat.script w app chat_input)) = Uncaught e ->
  Chat.cache app = None /\
  snd (Chat.carregar_recursos w) = Raise e /\
  (exists items,
     directory_lazy_load w DIRETORIO_BASE_CONHECIMENTO Chat.glob
     = (items, Some e) \/
     directory_lazy_load w DIRETORIO_BASE_CONHECIMENTO Chat.glob
     = (items, None) /\
     (split_fields w chunk_size chunk_overlap
        (flat_map (document_fields w) items) = Raise e \/
      exists textos,
        split_fields w chunk_size chunk_overlap
          (flat_map (document_fields w) items) = Return textos /\
        (new_embeddings w embedding_model = Some e \/
         new_embeddings w embedding_model = None /\
         (from_documents w textos embedding_model = Raise e \/
          exists vector_store,
            from_documents w textos embedding_model = Return vector_store /\
            (new_llm w gemini_model 3 = Some e \/
             new_llm w gemini_model 3 = None /\
             new_chain w
               {| llm_model := gemini_model; temperature_tenths := 3;
                  chain_type := "stuff"; retriever := vector_store;
                  return_source_documents := false |} = Some e))))) /\
  snd (Chat.script w app chat_input) = app.
Proof.
  intros Hend.
  assert (Hc : Chat.cache app = None).
  { destruct (Chat.cache app) as [kept|] eqn:Hc; [|reflexivity]. exfalso.
    revert Hend. unfold Chat.script. rewrite Hc, cache_hit.
    destruct (Chat.value kept) as [[qa|] nd]; simpl; [|discriminate].
    destruct chat_input as [prompt|]; [destruct (Py.truthy prompt)|];
      discriminate. }
  assert (Hrun : snd (Chat.carregar_recursos w) = Raise e).
  { revert Hend. unfold Chat.script, Chat.cache_resource. rewrite Hc.
    destruct (Chat.carregar_recursos w) as [evs [e'|[[qa|] nd]]]; simpl.
    - now intros [= ->].
    - destruct chat_input as [prompt|]; [destruct (Py.truthy prompt)|];
        discriminate.
    - discriminate. }
  split; [exact Hc|]. split; [exact Hrun|]. split.
  - now apply carregar_raises_inv.
  - destruct (Chat.carregar_recursos w) as [evs outcome] eqn:Hsetup.
    simpl in Hrun. subst outcome.
    rewrite (script_setup_raises w app chat_input evs e Hc Hsetup). simpl.
    destruct app; simpl in *. now rewrite Hc.
Qed.

Lemma chat_only_setup_raises_witness :
  let w :=
    Sample.with_from_documents (fun _ _ => Raise "API key not valid")
      Sample.world in
  Chat.cache Chat.fresh = None /\
  snd (Chat.carregar_recursos w) = Raise "API key not valid" /\
  snd (Chat.script w Chat.fresh (Some "oi")) = Chat.fresh.
Proof.
  intros w.
  destruct (chat_only_setup_raises w Chat.fresh (Some "oi")
              "API key not valid") as (Hc & Hrun & _ & Hsame).
  - vm_compute. reflexivity.
  - now repeat split.
Defined.

Section ChatCalls.

Variable w : World.

Lemma questions_avisos (erros : list string) :
  questions (Chat.avisos erros) = [].
Proof.
  destruct erros as [|e erros]; [reflexivity|].
  unfold Chat.avisos. generalize (e :: erros) as l. intros l. simpl.
  induction l; simpl; auto.
Qed.

(** The setup never calls the chain. *)
Lemma questions_carregar : questions (fst (Chat.carregar_recursos w)) = [].
Proof.
  unfold Chat.carregar_recursos.
  destruct (in_environ _ w); simpl; [|reflexivity].
  destruct (isdir w _); simpl; [|reflexivity].
  destruct (directory_lazy_load w _ _) as [items [e|]]; [reflexivity|].
  destruct (Chat.carregar_um_por_um _ _ _ _) as [docs erros].
  destruct docs as [|d ds]; simpl.
  { now rewrite questions_app, questions_avisos. }
  destruct (split_fields w _ _ _) as [e|textos]; simpl.
  { apply questions_avisos. }
  destruct (new_embeddings w _) as [e|]; simpl.
  { apply questions_avisos. }
  destruct (from_documents w _ _) as [e|vs]; simpl.
  { now rewrite questions_app, questions_avisos. }
  destruct (new_llm w _ _) as [e|]; simpl.
  { now rewrite questions_app, questions_avisos. }
  destruct (new_chain w _) as [e|]; simpl;
    now rewrite questions_app, questions_avisos.
Qed.

Lemma questions_setup
    (cache : option (Chat.Cached (option QAChain * option nat))) :
  questions (fst (fst (Chat.cache_resource Chat.carregar_recursos cache w)))
  = [].
Proof.
  destruct cache as [kept|]; [apply questions_shown|].
  unfold Chat.cache_resource. pose proof questions_carregar as H.
  destruct (Chat.carregar_recursos w) as [evs [e|v]]; exact H.
Qed.

End ChatCalls.

(** X11: an execution of the chat script calls the chain exactly when the
    setup hands it a chain and the input box brought a question, and then
    once: the call is made to that chain with the question as it was
    typed, between the user turn and the assistant turn that shows what
    the call gave, and the call count goes up by one.  The setup itself
    never calls the chain.  With no chain, or no question, the chain is
    not called and the call count stays. *)
Theorem chat_one_call_per_user_turn (w : World) (app : Chat.App)
    (chat_input : option string) (evs0 : list event)
    (outcome : result (option QAChain * option nat))
    (kept : option (Chat.Cached (option QAChain * option nat))) :
  Chat.cache_resource Chat.carregar_recursos (Chat.cache app) w =
    (evs0, outcome, kept) ->
  questions evs0 = [] /\
  (forall qa_chain num_docs prompt,
     outcome = Return (Some qa_chain, num_docs) ->
     chat_input = Some prompt -> prompt <> "" ->
     questions (fst (fst (Chat.script w app chat_input))) = [prompt] /\
     Chat.calls (snd (Chat.script w app chat_input)) = S (Chat.calls app) /\
     exists head,
       questions head = [] /\
       fst (fst (Chat.script w app chat_input)) =
       head ++
       [ Chat.mostrar {| role := "user"; content := prompt |};
         Invoked prompt;
         Chat.mostrar
           {| role := "assistant";
              content :=
                Chat.responder w qa_chain (Chat.calls app) prompt |} ]) /\
  ((forall qa_chain num_docs, outcome <> Return (Some qa_chain, num_docs)) \/
   chat_input = None \/ chat_input = Some "" ->
   questions (fst (fst (Chat.script w app chat_input))) = [] /\
   Chat.calls (snd (Chat.script w app chat_input)) = Chat.calls app).
Proof.
  intros Hsetup.
  pose proof (questions_setup w (Chat.cache app)) as Hq.
  rewrite Hsetup in Hq. simpl in Hq.
  assert (Hhead : forall (num_docs : option nat) ms,
    questions
      ([Shown (StTitle Chat.page_title); Shown (StCaption Chat.page_caption)]
       ++ evs0 ++ [Shown (StSuccess (Chat.msg_loaded num_docs))]
       ++ map Chat.mostrar ms ++ [Shown (StChatInput Chat.placeholder)])
    = []).
  { intros num_docs ms. simpl. rewrite questions_app, Hq. simpl.
    now rewrite questions_app, questions_mostrar. }
  split; [exact Hq|]. split.
  - intros qa num_docs prompt -> -> Hne.
    unfold Chat.script. rewrite Hsetup.
    destruct prompt as [|c prompt]; [contradiction|].
    cbn [Py.truthy fst snd Chat.calls]. split; [|split].
    + rewrite questions_app, Hhead. reflexivity.
    + reflexivity.
    + eexists. split; [apply Hhead | reflexivity].
  - intros Hno. unfold Chat.script. rewrite Hsetup.
    destruct outcome as [e|[[qa|] num_docs]].
    + simpl. rewrite ?questions_app, ?Hq. now split.
    + destruct Hno as [Hno | [-> | ->]].
      * now destruct (Hno qa num_docs).
      * cbn [fst snd Chat.calls]. now rewrite Hhead.
      * cbn [Py.truthy fst snd Chat.calls]. now rewrite Hhead.
    + simpl. rewrite ?questions_app, ?Hq. simpl. now split.
Qed.

Lemma chat_one_call_per_user_turn_witness :
  questions (fst (fst (Chat.script Sample.world Chat.fresh (Some " sair "))))
  = [" sair "] /\
  Chat.calls (snd (Chat.script Sample.world Chat.fresh (Some " sair "))) = 1 /\
  questions (fst (fst (Chat.script Sample.no_dir Chat.fresh (Some "oi"))))
  = [] /\
  Chat.calls (snd (Chat.script Sample.no_dir Chat.fresh (Some "oi"))) = 0.
Proof.
  destruct (Chat.cache_resource Chat.carregar_recursos (Chat.cache Chat.fresh)
              Sample.world) as [[evs1 [e1|[[qa1|] nd1]]] kept1] eqn:H1;
    try (vm_compute in H1; discriminate H1).
  destruct (Chat.cache_resource Chat.carregar_recursos (Chat.cache Chat.fresh)
              Sample.no_dir) as [[evs2 outcome2] kept2] eqn:H2.
  destruct (chat_one_call_per_user_turn Sample.world Chat.fresh
              (Some " sair ") evs1 _ kept1 H1) as (_ & Hcall & _).
  destruct (Hcall qa1 nd1 " sair " eq_refl eq_refl ltac:(discriminate))
    as (Hq & Hc & _).
  destruct (chat_one_call_per_user_turn Sample.no_dir Chat.fresh
              (Some "oi") evs2 outcome2 kept2 H2) as (_ & _ & Hnone).
  destruct Hnone as (Hq' & Hc').
  { left. intros qa nd ->. vm_compute in H2. discriminate H2. }
  now repeat split.
Defined.

(** ** Paths and patterns in the chat front-end *)

Section ChatPaths.



Lemma fnmatch_literal (lit : string) :
  wildfree lit = true ->
  forall name, Glob.fnmatch lit name = String.eqb lit name.
Proof.
  induction lit as [|p lit IH]; intros Hw name.
  - now destruct name.
  - simpl in Hw.
    apply andb_true_iff in Hw as [Hw Hlit].
    apply andb_true_iff in Hw as [Hstar Hq].
    apply negb_true_iff in Hstar, Hq.
    destruct name as [|c name]; cbn [Glob.fnmatch]; rewrite Hstar.
    + reflexivity.
    + rewrite Hq, IH by exact Hlit. reflexivity.
Qed.

(** A star in front of plain text asks for a name that ends in it. *)
Lemma fnmatch_star_literal (lit : string) :
  wildfree lit = true ->
  forall name,
  Glob.fnmatch (String "*" lit) name = Glob.endswith name lit.
Proof.
  intros Hw name. induction name as [|c name IH].
  - rewrite fnmatch_star_unfold, fnmatch_literal by exact Hw.
    now destruct lit.
  - rewrite fnmatch_star_unfold, fnmatch_literal, IH by exact Hw.
    change (Glob.endswith (String c name) lit)
      with (String.eqb (String c name) lit || Glob.endswith name lit).
    now rewrite String.eqb_sym.
Qed.

Lemma endswith_nonempty (s suffix : string) :
  Glob.endswith s suffix = true -> suffix <> "" -> s <> "".
Proof.
  intros H Hs ->. destruct suffix; [now apply Hs | discriminate H].
Qed.

Lemma endswith_last_char (s suffix : string) :
  suffix <> "" -> Glob.endswith s suffix = true ->
  last_char s = last_char suffix.
Proof.
  intros Hs. induction s as [|c s IH]; intros H.
  - now destruct (endswith_nonempty "" suffix H Hs).
  - change (Glob.endswith (String c s) suffix)
      with (String.eqb (String c s) suffix || Glob.endswith s suffix) in H.
    apply orb_true_iff in H as [H|H].
    + apply String.eqb_eq in H. now rewrite H.
    + rewrite <- (IH H).
      pose proof (endswith_nonempty s suffix H Hs) as Hne.
      destruct s; [congruence | reflexivity].
Qed.

(** What ends the base name ends the path. *)
Lemma endswith_basename (p suffix : string) :
  Glob.endswith (Py.basename p) suffix = true ->
  Glob.endswith p suffix = true.
Proof.
  induction p as [|c p IH]; [trivial|].
  simpl Py.basename.
  destruct (Ascii.eqb c "/" || Py.has_slash p); [|trivial].
  intros H.
  change (Glob.endswith (String c p) suffix)
    with (String.eqb (String c p) suffix || Glob.endswith p suffix).
  rewrite (IH H). apply orb_true_r.
Qed.

End ChatPaths.



(** X13: read by the rules of [fnmatch], where braces stand for
    themselves, the pattern of the chat front-end selects a file exactly
    when its name ends in a dot and the whole brace group; no file whose
    name ends in one of the accepted extensions is selected. *)
Theorem chat_glob_rejects_accepted_extensions (path : string) :
  Glob.selects Chat.glob path =
    Glob.endswith (Py.basename path)
      ".{txt,pdf,docx,md,sql,csv,doc,png,pptx,xlsx}" /\
  (Glob.has_accepted_extension path = true ->
   Glob.selects Chat.glob path = false).
Proof.
  assert (Hsel : Glob.selects Chat.glob path =
                 Glob.endswith (Py.basename path)
                   ".{txt,pdf,docx,md,sql,csv,doc,png,pptx,xlsx}").
  { unfold Glob.selects.
    change (Glob.components Chat.glob)
      with ["**"; "*.{txt,pdf,docx,md,sql,csv,doc,png,pptx,xlsx}"].
    rewrite glob_deep_last by reflexivity.
    destruct (components_last path) as (h & t & -> & <- & _).
    now apply fnmatch_star_literal. }
  split; [exact Hsel|].
  intros Hacc. rewrite Hsel.
  destruct (Glob.endswith (Py.basename path) _) eqn:Hends; [|reflexivity].
  exfalso.
  apply endswith_basename, endswith_last_char in Hends; [|discriminate].
  apply existsb_exists in Hacc as (ext & Hin & Hext).
  apply endswith_last_char in Hext; [|discriminate].
  rewrite Hext in Hends. clear Hext Hsel.
  simpl in Hin.
  repeat (destruct Hin as [<-|Hin]; [vm_compute in Hends; discriminate Hends|]).
  exact Hin.
Qed.

Lemma chat_glob_rejects_accepted_extensions_witness :
  Glob.selects Chat.glob "rh/politicas/ferias.docx" = false.
Proof.
  apply (proj2 (chat_glob_rejects_accepted_extensions
                  "rh/politicas/ferias.docx")).
  reflexivity.
Defined.
